(** * EndNote XML to BibTeX: the conversion engine of [xml_converter.py]

    A shallow embedding of class [XML] (methods [convert_to_bibtex],
    [_extract_text_from_styled_element], [_extract_fields_from_xml],
    [_get_required_fields], [_format_fields]) and the properties of the
    specification that concern it.

    Modelling choices.
    - A Python [str] is a [string]; a character is a code point below 256.
    - [xml.etree.ElementTree.Element] is the inductive [Element]: tag,
      attribute dictionary, text and children ([tail] is never read by the
      converter).  An element handed over already parsed may carry any Python
      object as text or attribute value; [pyobj] keeps one representative of
      each behaviour the converter can observe: [None], a [str], an [int]
      (truthy when non-zero, without [strip], and refused by an f-string
      when it has more than 4300 digits) and the empty list (falsy,
      unhashable).
    - The path language of [find]/[findall] is kept in tokenised form: the
      source path ['.//a/b'] is [[Desc "a"; Child "b"]].
    - Python dictionaries whose iteration order is observable ([fields]) are
      association lists with unique keys in insertion order.
    - Exceptions are values of [pyexn]; code that may raise lives in the
      [result] monad, and each [try]/[except] is a [match] on it.
    - [self] is the record [XML]; a method that mutates
      [self.conversion_errors] returns the updated object.
    - [print] calls are not modelled (no property below reads stdout), hence
      [suppress_warnings] is carried but never consulted.
    - [ET.fromstring] is the library's parser and is a parameter.
    - Of [main.py] the development keeps what is computed from strings: the
      line format of [Logger.log], and the log-file test and the entry count
      of [convert_file]; widgets, dialogs and the file system are left
      out. *)

From Stdlib Require Import String Ascii List ZArith Bool Arith Lia.
From Stdlib Require Import Permutation.
From Stdlib Require Import DecimalString DecimalNat.
Import ListNotations.

Local Open Scope list_scope.
Local Open Scope string_scope.

(** ** Python values and exceptions *)

Module Py.

Inductive pyobj : Type :=
| PyNone
| PyStr (s : string)
| PyInt (z : Z)
| PyEmptyList.

(** [bool(o)] *)
Definition truthy (o : pyobj) : bool :=
  match o with
  | PyNone => false
  | PyStr s => negb (s =? "")
  | PyInt z => negb (z =? 0)%Z
  | PyEmptyList => false
  end.

(** [type(o).__name__] *)
Definition type_name (o : pyobj) : string :=
  match o with
  | PyNone => "NoneType"
  | PyStr _ => "str"
  | PyInt _ => "int"
  | PyEmptyList => "list"
  end.

Definition str_of_nat (n : nat) : string :=
  NilEmpty.string_of_uint (Nat.to_uint n).

Definition str_of_Z (z : Z) : string :=
  NilZero.string_of_int (Z.to_int z).

(** [a == b] between a value and a [str] constant *)
Definition eq_str (o : pyobj) (s : string) : bool :=
  match o with
  | PyStr s' => s' =? s
  | _ => false
  end.

Inductive pyexn : Type :=
| AttributeError (ty attr : string)
| TypeError_join (i : nat) (ty : string)
| TypeError_unhashable (ty : string)
| ValueError_int_digits.

(** [str(e)] with CPython's wording *)
Definition str_exn (e : pyexn) : string :=
  match e with
  | AttributeError ty attr =>
      "'" ++ ty ++ "' object has no attribute '" ++ attr ++ "'"
  | TypeError_join i ty =>
      "sequence item " ++ str_of_nat i ++ ": expected str instance, "
        ++ ty ++ " found"
  | TypeError_unhashable ty => "unhashable type: '" ++ ty ++ "'"
  | ValueError_int_digits =>
      "Exceeds the limit (4300 digits) for integer string conversion; "
        ++ "use sys.set_int_max_str_digits() to increase the limit"
  end.

Inductive result (A : Type) : Type :=
| Ok (a : A)
| Raise (e : pyexn).
Arguments Ok {A} a.
Arguments Raise {A} e.

Definition bind {A B : Type} (m : result A) (k : A -> result B) : result B :=
  match m with
  | Ok a => k a
  | Raise e => Raise e
  end.

Definition raises {A : Type} (m : result A) : bool :=
  match m with
  | Ok _ => false
  | Raise _ => true
  end.

(** [sys.get_int_max_str_digits()], CPython's default *)
Definition max_str_digits : nat := 4300.

(** [format(o, '')], what an f-string replacement field inserts.  An [int]
    whose decimal form, sign apart, has more than [max_str_digits] digits is
    not converted: [ValueError]. *)
Definition format (o : pyobj) : result string :=
  match o with
  | PyNone => Ok "None"
  | PyStr s => Ok s
  | PyInt z =>
      if (max_str_digits <? String.length (str_of_Z (Z.abs z)))%nat
      then Raise ValueError_int_digits
      else Ok (str_of_Z z)
  | PyEmptyList => Ok "[]"
  end.

(** Code points for which [str.isspace] holds, below 256. *)
Definition isspace (c : ascii) : bool :=
  let n := nat_of_ascii c in
  (((9 <=? n) && (n <=? 13)) || ((28 <=? n) && (n <=? 32))
   || (n =? 133) || (n =? 160))%nat.

Fixpoint lstrip (s : string) : string :=
  match s with
  | EmptyString => EmptyString
  | String c s' => if isspace c then lstrip s' else s
  end.

(** [rstrip] keeps a character when it, or anything after it, is not
    white space. *)
Fixpoint rstrip (s : string) : string :=
  match s with
  | EmptyString => EmptyString
  | String c s' =>
      match rstrip s' with
      | EmptyString => if isspace c then EmptyString else String c EmptyString
      | r => String c r
      end
  end.

(** [s.strip()] *)
Definition strip (s : string) : string := rstrip (lstrip s).

(** [o.strip()] on an arbitrary object *)
Definition py_strip (o : pyobj) : result string :=
  match o with
  | PyStr s => Ok (strip s)
  | _ => Raise (AttributeError (type_name o) "strip")
  end.

(** [sep.join(items)]: the first item that is not a [str] raises. *)
Fixpoint join_from (i : nat) (sep : string) (items : list pyobj)
  : result (list string) :=
  match items with
  | [] => Ok []
  | PyStr s :: rest =>
      bind (join_from (S i) sep rest) (fun l => Ok (s :: l))
  | o :: _ => Raise (TypeError_join i (type_name o))
  end.

Definition join (sep : string) (items : list pyobj) : result string :=
  bind (join_from 0 sep items) (fun l => Ok (String.concat sep l)).

End Py.
Import Py.

Notation "x <- m ;; k" := (bind m (fun x => k))
  (at level 61, m at next level, right associativity).

(** ** Dictionaries in insertion order *)

Module Dict.

Section WithValue.
Context {V : Type}.

Definition dict : Type := list (string * V).

(** [d.get(k)] *)
Fixpoint get (d : dict) (k : string) : option V :=
  match d with
  | [] => None
  | (k', v) :: d' => if k' =? k then Some v else get d' k
  end.

(** [k in d] *)
Definition mem (d : dict) (k : string) : bool :=
  match get d k with Some _ => true | None => false end.

(** [d[k] = v]: an existing key keeps its position. *)
Fixpoint set (d : dict) (k : string) (v : V) : dict :=
  match d with
  | [] => [(k, v)]
  | (k', v') :: d' =>
      if k' =? k then (k', v) :: d' else (k', v') :: set d' k v
  end.

(** [d.get(k, default)] *)
Definition get_default (d : dict) (k : string) (default : V) : V :=
  match get d k with Some v => v | None => default end.

End WithValue.
Arguments dict V : clear implicits.

End Dict.

(** ** Element trees and the path queries the converter uses *)

#[warnings="-register-all"]
Inductive Element : Type :=
  mkElement {
      tag : string;
      attrib : Dict.dict pyobj;
      text : pyobj;
      children : list Element
    }.

(** [e.iter()]: the element, then its descendants, in document order. *)
Fixpoint iter (e : Element) : list Element :=
  e :: flat_map iter (children e).

Inductive step : Type :=
| Desc (t : string)    (* //t *)
| Child (t : string).  (* /t  *)

Definition has_tag (t : string) (e : Element) : bool := tag e =? t.

(** One step of [ElementPath]: [//t] yields, for each element selected so
    far, its proper descendants tagged [t]; [/t] its children tagged [t]. *)
Definition select (s : step) (elems : list Element) : list Element :=
  match s with
  | Desc t =>
      flat_map (fun elem => filter (has_tag t) (flat_map iter (children elem)))
               elems
  | Child t =>
      flat_map (fun elem => filter (has_tag t) (children elem)) elems
  end.

(** [e.findall(path)] *)
Definition findall (path : list step) (e : Element) : list Element :=
  fold_left (fun elems s => select s elems) path [e].

(** [e.find(path)] *)
Definition find (path : list step) (e : Element) : option Element :=
  hd_error (findall path e).

Definition is_some {A : Type} (o : option A) : bool :=
  match o with Some _ => true | None => false end.

(** ** The converter *)

Definition nl : string := String "010" EmptyString.
Definition tab : string := String "009" EmptyString.

Record XML : Type :=
  mkXML {
      suppress_warnings : bool;
      extract_styled_text : bool;
      conversion_errors : list string
    }.

(** [self.conversion_errors.append(msg)] *)
Definition append_error (self : XML) (msg : string) : XML :=
  mkXML (suppress_warnings self) (extract_styled_text self)
        (conversion_errors self ++ [msg]).

(** [self.conversion_errors = []] *)
Definition reset_errors (self : XML) : XML :=
  mkXML (suppress_warnings self) (extract_styled_text self) [].

(** [XML()] *)
Definition XML_init : XML := mkXML true true [].

Definition entry_type_map : Dict.dict string :=
  [ ("Journal Article", "article");
    ("Book", "book");
    ("Book Section", "incollection");
    ("Conference Paper", "inproceedings");
    ("Conference Proceedings", "proceedings");
    ("Conference Proceeding", "proceedings");
    ("Thesis", "phdthesis");
    ("Report", "techreport");
    ("Web Page", "online");
    ("Patent", "patent");
    ("Unpublished Work", "unpublished");
    ("Manuscript", "unpublished");
    ("Magazine Article", "article");
    ("Newspaper Article", "article");
    ("Electronic Article", "article");
    ("Generic", "misc") ].

(** [self.entry_type_map.get(name, default)]: every key of the table is a
    [str], so another hashable object is never found; hashing a list
    raises. *)
Definition entry_type_map_get (name : pyobj) (default : string)
  : result string :=
  match name with
  | PyStr s => Ok (Dict.get_default entry_type_map s default)
  | PyEmptyList => Raise (TypeError_unhashable (type_name name))
  | _ => Ok default
  end.

(** [element.text if element.text else ""] *)
Definition text_or_empty (element : Element) : pyobj :=
  if truthy (text element) then text element else PyStr "".

Definition _extract_text_from_styled_element
  (self : XML) (element : option Element) : result pyobj :=
  match element with
  | None => Ok (PyStr "")
  | Some el =>
      if extract_styled_text self && is_some (find [Desc "style"] el)
      then s <- join "" (map text_or_empty (findall [Desc "style"] el)) ;;
           Ok (PyStr s)
      else Ok (text_or_empty el)
  end.

Definition fieldset : Type := Dict.dict string.

(** The block the source repeats for every single-valued field:
    [[
      if elem is not None:
          t = self._extract_text_from_styled_element(elem)
          if t:
              fields[key] = t.strip()
    ]] *)
Definition extract_single
  (self : XML) (elem : option Element) (key : string) (fields : fieldset)
  : result fieldset :=
  match elem with
  | None => Ok fields
  | Some _ =>
      t <- _extract_text_from_styled_element self elem ;;
      if truthy t
      then v <- py_strip t ;; Ok (Dict.set fields key v)
      else Ok fields
  end.

(** The loop shared by authors and keywords:
    [[
      for e in elems:
          t = self._extract_text_from_styled_element(e)
          if t:
              names.append(t.strip())
    ]] *)
Fixpoint collect_texts (self : XML) (elems : list Element)
  (names : list string) : result (list string) :=
  match elems with
  | [] => Ok names
  | e :: rest =>
      t <- _extract_text_from_styled_element self (Some e) ;;
      if truthy t
      then v <- py_strip t ;; collect_texts self rest (names ++ [v])
      else collect_texts self rest names
  end.

Definition extract_authors (self : XML) (record : Element) (fields : fieldset)
  : result fieldset :=
  match find [Desc "contributors"; Child "authors"] record with
  | None => Ok fields
  | Some authors_elem =>
      author_names <-
        collect_texts self (findall [Desc "author"] authors_elem) [] ;;
      match author_names with
      | [] => Ok fields
      | _ => Ok (Dict.set fields "author" (String.concat " and " author_names))
      end
  end.

Definition extract_secondary (self : XML) (record : Element)
  (fields : fieldset) : result fieldset :=
  let secondary_title := find [Desc "titles"; Child "secondary-title"] record in
  match secondary_title with
  | None => Ok fields
  | Some _ =>
      secondary_text <- _extract_text_from_styled_element self secondary_title ;;
      if truthy secondary_text
      then
        match find [Desc "ref-type"] record with
        | Some ref_type_elem =>
            match Dict.get (attrib ref_type_elem) "name" with
            | Some name =>
                if eq_str name "Journal Article"
                then v <- py_strip secondary_text ;;
                     Ok (Dict.set fields "journal" v)
                else v <- py_strip secondary_text ;;
                     Ok (Dict.set fields "booktitle" v)
            | None => Ok fields
            end
        | None => Ok fields
        end
      else Ok fields
  end.

Definition extract_keywords (self : XML) (record : Element)
  (fields : fieldset) : result fieldset :=
  let keywords_elem := findall [Desc "keywords"; Child "keyword"] record in
  match keywords_elem with
  | [] => Ok fields
  | _ =>
      keywords <- collect_texts self keywords_elem [] ;;
      match keywords with
      | [] => Ok fields
      | _ => Ok (Dict.set fields "keywords" (String.concat ", " keywords))
      end
  end.

Definition extra_tags : list string :=
  ["edition"; "address"; "note"; "month"; "series"; "chapter"].

Fixpoint extract_extras (self : XML) (record : Element) (tags : list string)
  (fields : fieldset) : result fieldset :=
  match tags with
  | [] => Ok fields
  | t :: rest =>
      fields <- extract_single self (find [Desc t] record) t fields ;;
      extract_extras self record rest fields
  end.

(** The body of the [try] block of [_extract_fields_from_xml]. *)
Definition extract_fields_body (self : XML) (record : Element)
  : result fieldset :=
  let fields : fieldset := [] in
  fields <- extract_single self
              (find [Desc "titles"; Child "title"] record) "title" fields ;;
  fields <- extract_authors self record fields ;;
  fields <- extract_single self
              (find [Desc "dates"; Child "year"] record) "year" fields ;;
  fields <- extract_secondary self record fields ;;
  fields <- extract_single self (find [Desc "volume"] record) "volume" fields ;;
  fields <- extract_single self (find [Desc "number"] record) "number" fields ;;
  fields <- extract_single self (find [Desc "pages"] record) "pages" fields ;;
  fields <- extract_single self
              (find [Desc "publisher"] record) "publisher" fields ;;
  fields <- extract_single self
              (find [Desc "urls"; Child "related-urls"; Child "url"] record)
              "url" fields ;;
  fields <- extract_single self
              (find [Desc "electronic-resource-num"] record) "doi" fields ;;
  fields <- extract_single self
              (find [Desc "abstract"] record) "abstract" fields ;;
  fields <- extract_keywords self record fields ;;
  fields <- extract_single self (find [Desc "isbn"] record) "isbn" fields ;;
  extract_extras self record extra_tags fields.

Definition _extract_fields_from_xml (self : XML) (record : Element)
  : fieldset * XML :=
  match extract_fields_body self record with
  | Ok fields => (fields, self)
  | Raise e =>
      ([], append_error self ("Error extracting fields: " ++ str_exn e))
  end.

Definition required_fields_table : Dict.dict (list string) :=
  [ ("article", ["author"; "title"; "journal"; "year"]);
    ("book", ["author"; "title"; "publisher"; "year"]);
    ("inbook", ["author"; "title"; "publisher"; "year"]);
    ("incollection", ["author"; "title"; "booktitle"; "publisher"; "year"]);
    ("inproceedings", ["author"; "title"; "booktitle"; "year"]);
    ("proceedings", ["title"; "year"]);
    ("phdthesis", ["author"; "title"; "school"; "year"]);
    ("mastersthesis", ["author"; "title"; "school"; "year"]);
    ("techreport", ["author"; "title"; "institution"; "year"]);
    ("online", ["title"; "url"]);
    ("misc", ["title"]);
    ("patent", ["author"; "title"; "number"; "year"]);
    ("unpublished", ["author"; "title"; "note"]) ].

Definition _get_required_fields (entry_type : string) : list string :=
  Dict.get_default required_fields_table entry_type [].

(** [f"\n\t{field} = {{{field_value}}},"] *)
Definition field_line (field field_value : string) : string :=
  nl ++ tab ++ field ++ " = {" ++ field_value ++ "},".

(** [field in required_fields] *)
Definition in_list (field : string) (l : list string) : bool :=
  existsb (String.eqb field) l.

(** The two loops of [_format_fields]; the first one threads
    [(formatted_fields, missing_fields)]. *)
Definition format_required (fields : fieldset) (required_fields : list string)
  : string * list string :=
  fold_left
    (fun (acc : string * list string) field =>
       let '(formatted_fields, missing_fields) := acc in
       match Dict.get fields field with
       | Some field_value =>
           (formatted_fields ++ field_line field field_value, missing_fields)
       | None => (formatted_fields, (missing_fields ++ [field])%list)
       end)
    required_fields ("", []).

Definition format_flexible (fields : fieldset) (required_fields : list string)
  (formatted_fields : string) : string :=
  fold_left
    (fun (formatted_fields : string) '(field, field_value) =>
       if in_list field required_fields
       then formatted_fields
       else formatted_fields ++ field_line field field_value)
    fields formatted_fields.

Definition _format_fields (fields : fieldset) (required_fields : list string)
  : string :=
  let '(formatted_fields, missing_fields) :=
    format_required fields required_fields in
  format_flexible fields required_fields formatted_fields.

(** The reference-type label of a record: the [name] attribute of its first
    [ref-type] descendant, else its own [ref-type] attribute, else
    ["Generic"]. *)
Definition entry_type_name_of (record : Element) : pyobj :=
  let from_record := Dict.get_default (attrib record) "ref-type" (PyStr "Generic") in
  match find [Desc "ref-type"] record with
  | Some ref_type_elem =>
      match Dict.get (attrib ref_type_elem) "name" with
      | Some name => name
      | None => from_record
      end
  | None => from_record
  end.

(** [key_elem.text if key_elem is not None and key_elem.text
     else f"ref{len(bibtex_entries) + 1}"]: the text itself, whatever object
    it is, or the fall-back string.  (The length of a list has far fewer
    digits than [max_str_digits].) *)
Definition entry_key_of (record : Element) (bibtex_entries : list string)
  : pyobj :=
  let fallback := PyStr ("ref" ++ str_of_nat (length bibtex_entries + 1)) in
  match find [Desc "rec-number"] record with
  | Some key_elem =>
      if truthy (text key_elem) then text key_elem else fallback
  | None => fallback
  end.

(** The body of the [try] block of the record loop.  Two of its statements
    can raise, the table lookup and the f-string of the header, which
    formats the key; both precede every mutation of [self]. *)
Definition convert_record (self : XML) (bibtex_entries : list string)
  (record : Element) : result (string * XML) :=
  let entry_type_name := entry_type_name_of record in
  entry_type <- entry_type_map_get entry_type_name "misc" ;;
  let entry_key := entry_key_of record bibtex_entries in
  entry_key <- format entry_key ;;
  let bibtex_entry := "@" ++ entry_type ++ "{" ++ entry_key in
  let '(fields, self) := _extract_fields_from_xml self record in
  let required_fields := _get_required_fields entry_type in
  let formatted_fields := _format_fields fields required_fields in
  Ok (bibtex_entry ++ formatted_fields ++ nl ++ "}", self).

(** [for index, record in enumerate(records): try: ... except Exception ...] *)
Fixpoint convert_records (self : XML) (index : nat) (records : list Element)
  (bibtex_entries : list string) : list string * XML :=
  match records with
  | [] => (bibtex_entries, self)
  | record :: rest =>
      match convert_record self bibtex_entries record with
      | Ok (bibtex_entry, self) =>
          convert_records self (S index) rest
                          (bibtex_entries ++ [bibtex_entry])%list
      | Raise e =>
          let error_msg :=
            "Error processing record " ++ str_of_nat (index + 1) ++ ": "
              ++ str_exn e in
          convert_records (append_error self error_msg) (S index) rest
                          bibtex_entries
      end
  end.

Definition is_nil {A : Type} (l : list A) : bool :=
  match l with [] => true | _ => false end.

(** [convert_to_bibtex] from the point where [xml_root] is bound. *)
Definition convert_root (self : XML) (xml_root : Element) : string * XML :=
  let records_path :=
    if is_some (find [Desc "records"; Child "record"] xml_root)
    then [Desc "records"; Child "record"]
    else [Desc "record"] in
  let records := findall records_path xml_root in
  if is_nil records
  then ("", append_error self "No records found in XML data")
  else
    let '(bibtex_entries, self) := convert_records self 0 records [] in
    if is_nil bibtex_entries && negb (is_nil (conversion_errors self))
    then ("", self)
    else (String.concat (nl ++ nl) bibtex_entries, self).

(** What a caller may pass as [xml_data]. *)
Inductive other_input : Type :=
| OtherNone
| OtherBytes (b : string)
| OtherInt (z : Z).

Inductive xml_input : Type :=
| InStr (s : string)
| InElement (e : Element)
| InOther (o : other_input).

(** Outcome of [ET.fromstring]: the root, or [ET.ParseError] with its
    message. *)
Inductive parse_result : Type :=
| Parsed (xml_root : Element)
| ParseError (msg : string).

Section Converter.

Variable fromstring : string -> parse_result.

Definition convert_to_bibtex (self : XML) (xml_data : xml_input)
  : string * XML :=
  let self := reset_errors self in
  match xml_data with
  | InStr s =>
      match fromstring s with
      | ParseError e =>
          ("", append_error self ("Error parsing XML: " ++ e))
      | Parsed xml_root => convert_root self xml_root
      end
  | InElement xml_root => convert_root self xml_root
  | InOther _ => ("", append_error self "Invalid XML data type")
  end.

End Converter.

(** ** Trees built by the parser *)

(** Trees as [ET.fromstring] builds them: every text is [None] or a [str],
    every attribute value a [str]. *)
Definition is_text (o : pyobj) : bool :=
  match o with PyNone | PyStr _ => true | _ => false end.

Definition is_str (o : pyobj) : bool :=
  match o with PyStr _ => true | _ => false end.

Fixpoint parsed (e : Element) : bool :=
  is_text (text e)
  && forallb (fun kv => is_str (snd kv)) (attrib e)
  && forallb parsed (children e).

(** ** Sample documents *)

Module Samples.

Definition leaf (t : string) (s : string) : Element :=
  mkElement t [] (PyStr s) [].

Definition node (t : string) (cs : list Element) : Element :=
  mkElement t [] PyNone cs.

Definition ref_type (name : string) : Element :=
  mkElement "ref-type" [("name", PyStr name)] (PyStr "17") [].

(** A journal article as EndNote exports it, title in styled text. *)
Definition article : Element :=
  node "record"
    [ leaf "rec-number" "42";
      ref_type "Journal Article";
      node "contributors"
        [ node "authors" [ leaf "author" "Knuth, D."; leaf "author" " Lamport, L. " ] ];
      node "titles"
        [ node "title" [ leaf "style" "Literate "; leaf "style" "Programming" ];
          leaf "secondary-title" "The Computer Journal" ];
      node "dates" [ leaf "year" "1984" ];
      leaf "volume" "27" ].

Definition doc (records : list Element) : Element :=
  node "xml" [ node "records" records ].

Definition titled (title : pyobj) : Element :=
  node "record" [ node "titles" [ mkElement "title" [] title [] ] ].

(** No [rec-number], no type label. *)
Definition keyless : Element := titled (PyStr "Untitled").

(** A title of blanks only. *)
Definition blank_title : Element := titled (PyStr " ").

(** A title whose text is the integer 5: [strip] raises on it. *)
Definition bad_title : Element := titled (PyInt 5).

(** A [rec-number] whose text is the integer [10 ** 4300], of 4301 digits:
    the header cannot be written. *)
Definition huge_key : Element :=
  node "record" [ mkElement "rec-number" [] (PyInt (10 ^ 4300)) [] ].

(** A [ref-type] attribute holding a list: the table lookup raises. *)
Definition unhashable_label : Element :=
  mkElement "record" [("ref-type", PyEmptyList)] PyNone [].

(** The label comes from the record's own attribute. *)
Definition attr_journal : Element :=
  mkElement "record" [("ref-type", PyStr "Journal Article")] PyNone
    [ node "titles" [ leaf "secondary-title" "Nature" ] ].

Definition unknown_type : Element :=
  node "record"
    [ ref_type "Nonexistent Type"; node "titles" [ leaf "title" "T" ] ].

(** A venue, but neither a [ref-type] element nor attribute. *)
Definition unlabelled_venue : Element :=
  node "record" [ node "titles" [ leaf "secondary-title" "Proc. X" ] ].

(** Four keywords: the second is one blank, the third has no text. *)
Definition tagged : Element :=
  node "record"
    [ node "keywords"
        [ leaf "keyword" "logic"; leaf "keyword" " "; node "keyword" [];
          leaf "keyword" "proof " ] ].

(** [<rec-number></rec-number>] as the parser delivers it. *)
Definition empty_key : Element :=
  node "record" [ node "rec-number" [] ].

End Samples.

(** ** Vocabulary of the properties *)

Definition concat_lines (lines : list string) : string :=
  fold_right String.append "" lines.

(** One line per required field that is present, in the order of the
    required-field list. *)
Definition required_lines (fields : fieldset) (required_fields : list string)
  : list string :=
  flat_map
    (fun field =>
       match Dict.get fields field with
       | Some field_value => [field_line field field_value]
       | None => []
       end)
    required_fields.

(** One line per field that is not required, in insertion order. *)
Definition flexible_lines (fields : fieldset) (required_fields : list string)
  : list string :=
  map (fun '(field, field_value) => field_line field field_value)
      (filter (fun '(field, _) => negb (in_list field required_fields)) fields).

Definition entry_text (entry_type entry_key : string) (fields : fieldset)
  : string :=
  let required_fields := _get_required_fields entry_type in
  "@" ++ entry_type ++ "{" ++ entry_key
      ++ concat_lines (required_lines fields required_fields)
      ++ concat_lines (flexible_lines fields required_fields)
      ++ nl ++ "}".

(** The table lookup on the record's label raises. *)
Definition lookup_raises (record : Element) : bool :=
  raises (entry_type_map_get (entry_type_name_of record) "misc").

(** The f-string of the header raises on the record's key.  The entries
    written so far play no part: they only enter the fall-back key, which is
    a string. *)
Definition header_raises (record : Element) : bool :=
  raises (format (entry_key_of record [])).

(** A record is dropped, and leaves an error of its own, when a statement of
    the loop's [try] block raises. *)
Definition record_dropped (record : Element) : bool :=
  lookup_raises record || header_raises record.

(** The key as the header shows it, for a record whose key can be
    formatted. *)
Definition header_key (record : Element) (bibtex_entries : list string)
  : string :=
  match format (entry_key_of record bibtex_entries) with
  | Ok entry_key => entry_key
  | Raise _ => ""
  end.

Definition extraction_fails (self : XML) (record : Element) : bool :=
  raises (extract_fields_body self record).

(** What the field-extraction pass of one record adds to the error list. *)
Definition extraction_errors (self : XML) (record : Element) : list string :=
  match extract_fields_body self record with
  | Ok _ => []
  | Raise e => ["Error extracting fields: " ++ str_exn e]
  end.

(** The number of records of a list that yield an entry. *)
Definition produced (records : list Element) : nat :=
  length (filter (fun record => negb (record_dropped record)) records).

(** The number of records of a list that add an error. *)
Definition failed (self : XML) (records : list Element) : nat :=
  length (filter (fun record =>
                    record_dropped record || extraction_fails self record)
                 records).

(** The element is missing, or resolves to the empty string. *)
Definition empty_result (self : XML) (elem : option Element) : Prop :=
  elem = None \/ _extract_text_from_styled_element self elem = Ok (PyStr "").

(** No author container, or one in which no author resolves to text. *)
Definition no_author_names (self : XML) (record : Element) : Prop :=
  match find [Desc "contributors"; Child "authors"] record with
  | None => True
  | Some authors_elem =>
      Forall (fun author => empty_result self (Some author))
             (findall [Desc "author"] authors_elem)
  end.

(** No keyword resolves to text. *)
Definition no_keywords (self : XML) (record : Element) : Prop :=
  Forall (fun kw => empty_result self (Some kw))
         (findall [Desc "keywords"; Child "keyword"] record).

(** The single-valued fields and the path each one is read from. *)
Definition single_valued : list (string * list step) :=
  [ ("title", [Desc "titles"; Child "title"]);
    ("year", [Desc "dates"; Child "year"]);
    ("volume", [Desc "volume"]);
    ("number", [Desc "number"]);
    ("pages", [Desc "pages"]);
    ("publisher", [Desc "publisher"]);
    ("url", [Desc "urls"; Child "related-urls"; Child "url"]);
    ("doi", [Desc "electronic-resource-num"]);
    ("abstract", [Desc "abstract"]);
    ("isbn", [Desc "isbn"]);
    ("edition", [Desc "edition"]);
    ("address", [Desc "address"]);
    ("note", [Desc "note"]);
    ("month", [Desc "month"]);
    ("series", [Desc "series"]);
    ("chapter", [Desc "chapter"]) ].

(** A parser that accepts nothing, with expat's message for a truncated
    document. *)
Definition rejecting_parser (_ : string) : parse_result :=
  ParseError "no element found: line 1, column 17".

Definition article_entry : string :=
  "@article{42"
    ++ nl ++ tab ++ "author = {Knuth, D. and Lamport, L.},"
    ++ nl ++ tab ++ "title = {Literate Programming},"
    ++ nl ++ tab ++ "journal = {The Computer Journal},"
    ++ nl ++ tab ++ "year = {1984},"
    ++ nl ++ tab ++ "volume = {27},"
    ++ nl ++ "}".

(** The records [convert_to_bibtex] loops over: those under a [records]
    container when there is one, else every [record] below the root. *)
Definition records_of (xml_root : Element) : list Element :=
  findall
    (if is_some (find [Desc "records"; Child "record"] xml_root)
     then [Desc "records"; Child "record"]
     else [Desc "record"])
    xml_root.

(** The root [convert_to_bibtex] works on, when its input yields one. *)
Definition root_of (fromstring : string -> parse_result)
  (xml_data : xml_input) : option Element :=
  match xml_data with
  | InStr s =>
      match fromstring s with
      | Parsed xml_root => Some xml_root
      | ParseError _ => None
      end
  | InElement xml_root => Some xml_root
  | InOther _ => None
  end.

(** The field names in the order [_extract_fields_from_xml] visits them. *)
Definition extraction_order : list string :=
  [ "title"; "author"; "year"; "journal"; "booktitle"; "volume"; "number";
    "pages"; "publisher"; "url"; "doi"; "abstract"; "keywords"; "isbn";
    "edition"; "address"; "note"; "month"; "series"; "chapter" ].

(** [subseq l1 l2]: [l1] is [l2] with some elements left out. *)
Inductive subseq {A : Type} : list A -> list A -> Prop :=
| subseq_nil : subseq [] []
| subseq_skip : forall x l1 l2, subseq l1 l2 -> subseq l1 (x :: l2)
| subseq_keep : forall x l1 l2, subseq l1 l2 -> subseq (x :: l1) (x :: l2).

(** [len(set(l)) == len(l)] *)
Fixpoint no_repeat (l : list string) : bool :=
  match l with
  | [] => true
  | x :: rest => negb (in_list x rest) && no_repeat rest
  end.

(** The line [_format_fields] writes for one item of [fields]. *)
Definition item_line (item : string * string) : string :=
  field_line (fst item) (snd item).

(** The names [collect_texts] gathers from resolved texts: the empty ones
    are passed over, the others trimmed. *)
Definition kept_names (texts : list string) : list string :=
  map strip (filter (fun t => negb (t =? "")) texts).

(** [sep.join(names)] as a field value, or no field when there is no name. *)
Definition joined (sep : string) (names : list string) : option string :=
  match names with
  | [] => None
  | _ => Some (String.concat sep names)
  end.

(** The record has no usable [rec-number]. *)
Definition keyless (record : Element) : bool :=
  match find [Desc "rec-number"] record with
  | Some key_elem => negb (truthy (text key_elem))
  | None => true
  end.

(** ** [main.py]: what [convert_file] reads off the converter's text *)

(** [s.count(c)] for a one-character string [c] *)
Fixpoint count_char (c : ascii) (s : string) : nat :=
  match s with
  | EmptyString => 0
  | String a s' => (if Ascii.eqb a c then 1 else 0) + count_char c s'
  end.

(** [entry_count = bib_entry.count('@')], the number [convert_file] reports
    as "Generated N BibTeX entries". *)
Definition entry_count (bib_entry : string) : nat :=
  count_char "@" bib_entry.

(** Neither the record's key text nor any value of its FieldSet holds
    an [@]. *)
Definition no_at_sign (self : XML) (record : Element) : Prop :=
  (forall key_elem entry_key,
      find [Desc "rec-number"] record = Some key_elem ->
      format (text key_elem) = Ok entry_key ->
      entry_count entry_key = 0)
  /\ Forall (fun item => entry_count (snd item) = 0)
            (fst (_extract_fields_from_xml self record)).

(** ** [main.py]: the log lines and the check that refuses a log file *)

(** The fields of [datetime.datetime.now()] that the format reads. *)
Record datetime : Type :=
  mkDatetime {
      year : nat;
      month : nat;
      day : nat;
      hour : nat;
      minute : nat;
      second : nat
    }.

(** What the [datetime] type guarantees, for a year of four digits. *)
Definition datetime_ok (d : datetime) : Prop :=
  1000 <= year d < 10 * 1000 /\ 1 <= month d <= 12 /\ 1 <= day d <= 31
  /\ hour d <= 23 /\ minute d <= 59 /\ second d <= 59.

(** [%m], [%d], [%H], [%M], [%S]: two digits, zero-padded. *)
Definition pad2 (n : nat) : string :=
  if (n <? 10)%nat then "0" ++ str_of_nat n else str_of_nat n.

(** [d.strftime("%Y-%m-%d %H:%M:%S")] *)
Definition strftime (d : datetime) : string :=
  str_of_nat (year d) ++ "-" ++ pad2 (month d) ++ "-" ++ pad2 (day d)
    ++ " " ++ pad2 (hour d) ++ ":" ++ pad2 (minute d) ++ ":"
    ++ pad2 (second d).

(** [Logger.log]: [f"[{timestamp}] {level}: {message}\n"] *)
Definition log_entry (timestamp level message : string) : string :=
  "[" ++ timestamp ++ "] " ++ level ++ ": " ++ message ++ nl.

(** The atoms of the pattern of [convert_file]: a literal character, [\d]
    and [\s].  The pattern has no other construct, so a match has a fixed
    width and [re.search] succeeds exactly when some position matches. *)
Inductive atom : Type :=
| Lit (c : ascii)
| ClassD
| ClassS.

Definition is_digit (c : ascii) : bool :=
  let n := nat_of_ascii c in ((48 <=? n) && (n <=? 57))%nat.

Definition atom_matches (a : atom) (c : ascii) : bool :=
  match a with
  | Lit x => Ascii.eqb c x
  | ClassD => is_digit c
  | ClassS => isspace c
  end.

Fixpoint match_here (pattern : list atom) (s : string) : bool :=
  match pattern with
  | [] => true
  | a :: pattern' =>
      match s with
      | EmptyString => false
      | String c s' => atom_matches a c && match_here pattern' s'
      end
  end.

(** [re.search(pattern, s)] as a truth value *)
Fixpoint re_search (pattern : list atom) (s : string) : bool :=
  match_here pattern s
  || match s with
     | EmptyString => false
     | String _ s' => re_search pattern s'
     end.

(** [r'\[\d{4}-\d{2}-\d{2}\s\d{2}:\d{2}:\d{2}\]'] *)
Definition log_file_pattern : list atom :=
  [ Lit "[" ] ++ repeat ClassD 4 ++ [ Lit "-" ] ++ repeat ClassD 2
    ++ [ Lit "-" ] ++ repeat ClassD 2 ++ [ ClassS ] ++ repeat ClassD 2
    ++ [ Lit ":" ] ++ repeat ClassD 2 ++ [ Lit ":" ] ++ repeat ClassD 2
    ++ [ Lit "]" ].

Fixpoint starts_with (sub s : string) : bool :=
  match sub with
  | EmptyString => true
  | String a sub' =>
      match s with
      | EmptyString => false
      | String b s' => Ascii.eqb a b && starts_with sub' s'
      end
  end.

(** [sub in s] *)
Fixpoint str_in (sub s : string) : bool :=
  starts_with sub s
  || match s with
     | EmptyString => false
     | String _ s' => str_in sub s'
     end.

(** The test of [convert_file] on the file's text:
    [re.search(log_file_pattern, file_data) and ("INFO:" in file_data or
     "ERROR:" in file_data or "WARNING:" in file_data)] *)
Definition looks_like_log (file_data : string) : bool :=
  re_search log_file_pattern file_data
  && (str_in "INFO:" file_data || str_in "ERROR:" file_data
      || str_in "WARNING:" file_data).

(** [n] characters, all of them digits. *)
Fixpoint digits (n : nat) (s : string) : bool :=
  match n, s with
  | O, EmptyString => true
  | S n', String c s' => is_digit c && digits n' s'
  | _, _ => false
  end.

(** The shapes an error description can take. *)
Definition known_error (msg : string) : Prop :=
  (exists e, msg = "Error parsing XML: " ++ e)
  \/ msg = "Invalid XML data type"
  \/ msg = "No records found in XML data"
  \/ (exists n e,
        msg = "Error processing record " ++ str_of_nat n ++ ": " ++ str_exn e)
  \/ (exists e, msg = "Error extracting fields: " ++ str_exn e).

(** Empty, or starting with a character that is not white space. *)
Definition head_ok (s : string) : Prop :=
  match s with
  | EmptyString => True
  | String c _ => isspace c = false
  end.

(** Every value but those of [author] and [keywords] is its own trimming. *)
Definition values_trimmed (fields : fieldset) : Prop :=
  forall key v,
    key <> "author" -> key <> "keywords" ->
    Dict.get fields key = Some v -> strip v = v.

(** ** Supporting lemmas *)

Lemma append_nil_r (s : string) : s ++ "" = s.
Proof. induction s as [| c s IH]; simpl; [reflexivity | now rewrite IH]. Qed.

Lemma append_assoc (a b c : string) : (a ++ b) ++ c = a ++ b ++ c.
Proof. induction a as [| x a IH]; simpl; [reflexivity | now rewrite IH]. Qed.

Lemma concat_lines_app (l1 l2 : list string) :
  concat_lines (l1 ++ l2) = concat_lines l1 ++ concat_lines l2.
Proof.
  induction l1 as [| x l1 IH]; simpl; [reflexivity |].
  now rewrite IH, append_assoc.
Qed.

Lemma format_required_from fields required_fields acc missing :
  fst (fold_left
         (fun (acc : string * list string) field =>
            let '(formatted_fields, missing_fields) := acc in
            match Dict.get fields field with
            | Some field_value =>
                (formatted_fields ++ field_line field field_value,
                  missing_fields)
            | None => (formatted_fields, (missing_fields ++ [field])%list)
            end)
         required_fields (acc, missing))
  = acc ++ concat_lines (required_lines fields required_fields).
Proof.
  revert acc missing.
  induction required_fields as [| field rest IH]; intros acc missing.
  - simpl. now rewrite append_nil_r.
  - cbn [fold_left]. unfold required_lines. cbn [flat_map].
    destruct (Dict.get fields field) as [v |].
    + rewrite IH. unfold required_lines.
      rewrite concat_lines_app. simpl.
      now rewrite append_nil_r, append_assoc.
    + rewrite IH. reflexivity.
Qed.

Lemma format_flexible_lines fields required_fields acc :
  format_flexible fields required_fields acc
  = acc ++ concat_lines (flexible_lines fields required_fields).
Proof.
  unfold format_flexible, flexible_lines.
  revert acc.
  induction fields as [| [field v] rest IH]; intros acc.
  - simpl. now rewrite append_nil_r.
  - cbn [fold_left filter].
    destruct (in_list field required_fields); cbn [negb].
    + apply IH.
    + rewrite IH. cbn [map concat_lines fold_right].
      now rewrite append_assoc.
Qed.

Lemma _format_fields_lines fields required_fields :
  _format_fields fields required_fields
  = concat_lines (required_lines fields required_fields)
      ++ concat_lines (flexible_lines fields required_fields).
Proof.
  unfold _format_fields.
  pose proof (format_required_from fields required_fields "" []) as H.
  fold (format_required fields required_fields) in H.
  destruct (format_required fields required_fields) as [formatted missing].
  simpl in H. subst formatted.
  apply format_flexible_lines.
Qed.

(** Whether the header can be written does not depend on the entries
    written so far. *)
Lemma header_raises_any record bibtex_entries :
  raises (format (entry_key_of record bibtex_entries)) = header_raises record.
Proof.
  unfold header_raises, entry_key_of.
  destruct (find [Desc "rec-number"] record) as [key_elem |];
    [| reflexivity].
  now destruct (truthy (text key_elem)).
Qed.

Lemma format_header_key record bibtex_entries :
  header_raises record = false ->
  format (entry_key_of record bibtex_entries)
  = Ok (header_key record bibtex_entries).
Proof.
  rewrite <- (header_raises_any record bibtex_entries). unfold header_key.
  now destruct (format (entry_key_of record bibtex_entries)).
Qed.

Lemma format_Ok_header record bibtex_entries entry_key :
  format (entry_key_of record bibtex_entries) = Ok entry_key ->
  header_raises record = false
  /\ header_key record bibtex_entries = entry_key.
Proof.
  intros H. rewrite <- (header_raises_any record bibtex_entries).
  unfold header_key. now rewrite H.
Qed.

Lemma format_raises_ValueError o e :
  format o = Raise e -> e = ValueError_int_digits.
Proof.
  destruct o as [| s | z |]; cbn [format]; try discriminate.
  destruct (max_str_digits <? String.length (str_of_Z (Z.abs z)))%nat;
    [now intros [= <-] | discriminate].
Qed.

Lemma convert_record_formatted self bibtex_entries record entry_type
  entry_key :
  entry_type_map_get (entry_type_name_of record) "misc" = Ok entry_type ->
  format (entry_key_of record bibtex_entries) = Ok entry_key ->
  convert_record self bibtex_entries record
  = Ok (entry_text entry_type entry_key
                   (fst (_extract_fields_from_xml self record)),
        snd (_extract_fields_from_xml self record)).
Proof.
  intros Hty Hkey. unfold convert_record. rewrite Hty. cbn [bind].
  rewrite Hkey. cbn [bind].
  destruct (_extract_fields_from_xml self record) as [fields self'].
  cbn [fst snd]. unfold entry_text.
  rewrite _format_fields_lines.
  now rewrite !append_assoc.
Qed.

Lemma convert_record_ok self bibtex_entries record entry_type :
  entry_type_map_get (entry_type_name_of record) "misc" = Ok entry_type ->
  header_raises record = false ->
  convert_record self bibtex_entries record
  = Ok (entry_text entry_type (header_key record bibtex_entries)
                   (fst (_extract_fields_from_xml self record)),
        snd (_extract_fields_from_xml self record)).
Proof.
  intros Hty Hhd. apply convert_record_formatted; [assumption |].
  now apply format_header_key.
Qed.

Lemma convert_record_header self bibtex_entries record entry_type :
  entry_type_map_get (entry_type_name_of record) "misc" = Ok entry_type ->
  header_raises record = true ->
  convert_record self bibtex_entries record = Raise ValueError_int_digits.
Proof.
  intros Hty Hhd. unfold convert_record. rewrite Hty. cbn [bind].
  rewrite <- (header_raises_any record bibtex_entries) in Hhd.
  destruct (format (entry_key_of record bibtex_entries)) as [k | e] eqn:Hk;
    [discriminate |].
  now rewrite (format_raises_ValueError _ _ Hk).
Qed.

Lemma get_Some_In {V : Type} (d : Dict.dict V) k v :
  Dict.get d k = Some v -> In (k, v) d.
Proof.
  induction d as [| [k' v'] d IH]; simpl; [discriminate |].
  destruct (String.eqb_spec k' k) as [-> | _].
  - intros [= ->]. now left.
  - intros H. right. now apply IH.
Qed.

Lemma required_lines_present fields required_fields line :
  In line (required_lines fields required_fields) ->
  exists field field_value,
    In field required_fields /\ Dict.get fields field = Some field_value
    /\ line = field_line field field_value.
Proof.
  unfold required_lines. rewrite in_flat_map.
  intros (field & Hin & Hline).
  destruct (Dict.get fields field) as [v |] eqn:Hget; simpl in Hline.
  - destruct Hline as [<- | []]. now exists field, v.
  - destruct Hline.
Qed.

Lemma flexible_lines_present fields required_fields line :
  In line (flexible_lines fields required_fields) ->
  exists field field_value,
    In (field, field_value) fields
    /\ in_list field required_fields = false
    /\ line = field_line field field_value.
Proof.
  unfold flexible_lines. rewrite in_map_iff.
  intros ([field v] & <- & Hin). rewrite filter_In in Hin.
  destruct Hin as [Hin Hreq]. exists field, v.
  repeat split; [assumption |].
  now destruct (in_list field required_fields).
Qed.

Lemma convert_record_dropped self bibtex_entries record e :
  entry_type_map_get (entry_type_name_of record) "misc" = Raise e ->
  convert_record self bibtex_entries record = Raise e.
Proof. intros H. unfold convert_record. now rewrite H. Qed.

(** The two outcomes of the loop's [try] block. *)
Lemma convert_record_view self bibtex_entries record :
  (exists entry_type,
      entry_type_map_get (entry_type_name_of record) "misc" = Ok entry_type
      /\ header_raises record = false
      /\ record_dropped record = false)
  \/ (exists e,
        record_dropped record = true
        /\ convert_record self bibtex_entries record = Raise e).
Proof.
  unfold record_dropped, lookup_raises.
  destruct (entry_type_map_get (entry_type_name_of record) "misc")
    as [entry_type | e] eqn:Hty; cbn [raises orb].
  - destruct (header_raises record) eqn:Hhd.
    + right. exists ValueError_int_digits. split; [reflexivity |].
      now apply convert_record_header with (entry_type := entry_type).
    + left. now exists entry_type.
  - right. exists e. split; [reflexivity |].
    now apply convert_record_dropped.
Qed.

Lemma bind_ext {A B : Type} (m m' : result A) (k k' : A -> result B) :
  m = m' -> (forall a, k a = k' a) -> bind m k = bind m' k'.
Proof. intros <- H. destruct m; simpl; [apply H | reflexivity]. Qed.

Section SameFlag.

Variables self self' : XML.
Hypothesis same_flag : extract_styled_text self = extract_styled_text self'.

Lemma extract_text_same_flag element :
  _extract_text_from_styled_element self element
  = _extract_text_from_styled_element self' element.
Proof.
  unfold _extract_text_from_styled_element. now rewrite same_flag.
Qed.

Lemma extract_single_same_flag elem key fields :
  extract_single self elem key fields = extract_single self' elem key fields.
Proof.
  unfold extract_single. now rewrite extract_text_same_flag.
Qed.

Lemma collect_texts_same_flag elems names :
  collect_texts self elems names = collect_texts self' elems names.
Proof.
  revert names.
  induction elems as [| e rest IH]; intros names; cbn [collect_texts].
  - reflexivity.
  - rewrite extract_text_same_flag.
    destruct (_extract_text_from_styled_element self' (Some e)) as [t |];
      cbn [bind]; [| reflexivity].
    destruct (truthy t); [| apply IH].
    destruct (py_strip t); cbn [bind]; [apply IH | reflexivity].
Qed.

Lemma extract_extras_same_flag record tags fields :
  extract_extras self record tags fields
  = extract_extras self' record tags fields.
Proof.
  revert fields.
  induction tags as [| t rest IH]; intros fields; cbn [extract_extras].
  - reflexivity.
  - rewrite extract_single_same_flag.
    destruct (extract_single self' (find [Desc t] record) t fields);
      cbn [bind]; [apply IH | reflexivity].
Qed.

Lemma extract_authors_same_flag record fields :
  extract_authors self record fields = extract_authors self' record fields.
Proof.
  unfold extract_authors.
  destruct (find _ record); [| reflexivity].
  now rewrite collect_texts_same_flag.
Qed.

Lemma extract_secondary_same_flag record fields :
  extract_secondary self record fields
  = extract_secondary self' record fields.
Proof.
  unfold extract_secondary. now rewrite extract_text_same_flag.
Qed.

Lemma extract_keywords_same_flag record fields :
  extract_keywords self record fields
  = extract_keywords self' record fields.
Proof.
  unfold extract_keywords. now rewrite collect_texts_same_flag.
Qed.

Lemma extract_fields_body_same_flag record :
  extract_fields_body self record = extract_fields_body self' record.
Proof.
  unfold extract_fields_body.
  do 13 (apply bind_ext;
          [ solve [ apply extract_single_same_flag
                  | apply extract_authors_same_flag
                  | apply extract_secondary_same_flag
                  | apply extract_keywords_same_flag ]
          | intros ? ]).
  apply extract_extras_same_flag.
Qed.

End SameFlag.

Lemma extraction_fails_same_flag self self' record :
  extract_styled_text self = extract_styled_text self' ->
  extraction_fails self record = extraction_fails self' record.
Proof.
  intros H. unfold extraction_fails.
  now rewrite (extract_fields_body_same_flag self self' H).
Qed.

Lemma extract_fields_flag self record :
  extract_styled_text (snd (_extract_fields_from_xml self record))
  = extract_styled_text self.
Proof.
  unfold _extract_fields_from_xml.
  now destruct (extract_fields_body self record).
Qed.

Lemma extract_fields_errors self record :
  conversion_errors (snd (_extract_fields_from_xml self record))
  = (conversion_errors self ++ extraction_errors self record)%list.
Proof.
  unfold _extract_fields_from_xml, extraction_errors.
  destruct (extract_fields_body self record); simpl;
    [now rewrite app_nil_r | reflexivity].
Qed.

Lemma extract_fields_failed self record :
  extraction_fails self record = true ->
  fst (_extract_fields_from_xml self record) = []
  /\ length (extraction_errors self record) = 1.
Proof.
  unfold extraction_fails, _extract_fields_from_xml, extraction_errors.
  destruct (extract_fields_body self record); simpl; [discriminate | auto].
Qed.

Lemma extract_fields_fst_same_flag self self' record :
  extract_styled_text self = extract_styled_text self' ->
  fst (_extract_fields_from_xml self record)
  = fst (_extract_fields_from_xml self' record).
Proof.
  intros H. unfold _extract_fields_from_xml.
  rewrite (extract_fields_body_same_flag self self' H).
  now destruct (extract_fields_body self' record).
Qed.

(** One turn of the loop, by the outcome of its [try] block. *)
Lemma convert_records_kept self index record rest bibtex_entries entry_type :
  entry_type_map_get (entry_type_name_of record) "misc" = Ok entry_type ->
  header_raises record = false ->
  convert_records self index (record :: rest) bibtex_entries
  = convert_records (snd (_extract_fields_from_xml self record)) (S index) rest
      (bibtex_entries
         ++ [entry_text entry_type (header_key record bibtex_entries)
               (fst (_extract_fields_from_xml self record))])%list.
Proof.
  intros Hty Hhd. cbn [convert_records].
  now rewrite (convert_record_ok _ _ _ _ Hty Hhd).
Qed.

Lemma convert_records_formatted self index record rest bibtex_entries
  entry_type entry_key :
  entry_type_map_get (entry_type_name_of record) "misc" = Ok entry_type ->
  format (entry_key_of record bibtex_entries) = Ok entry_key ->
  convert_records self index (record :: rest) bibtex_entries
  = convert_records (snd (_extract_fields_from_xml self record)) (S index) rest
      (bibtex_entries
         ++ [entry_text entry_type entry_key
               (fst (_extract_fields_from_xml self record))])%list.
Proof.
  intros Hty Hkey. cbn [convert_records].
  now rewrite (convert_record_formatted _ _ _ _ _ Hty Hkey).
Qed.

(** The three shapes of a key text for which the header is written. *)
Lemma format_key_text record bibtex_entries key_elem s :
  find [Desc "rec-number"] record = Some key_elem ->
  text key_elem = PyStr s -> s <> "" ->
  format (entry_key_of record bibtex_entries) = Ok s.
Proof.
  intros Hfind Htext Hne. unfold entry_key_of. rewrite Hfind, Htext.
  cbn [truthy]. apply String.eqb_neq in Hne. now rewrite Hne.
Qed.

Lemma format_key_missing record bibtex_entries :
  find [Desc "rec-number"] record = None ->
  format (entry_key_of record bibtex_entries)
  = Ok ("ref" ++ str_of_nat (length bibtex_entries + 1)).
Proof. intros Hfind. unfold entry_key_of. now rewrite Hfind. Qed.

Lemma format_key_empty record bibtex_entries key_elem :
  find [Desc "rec-number"] record = Some key_elem ->
  truthy (text key_elem) = false ->
  format (entry_key_of record bibtex_entries)
  = Ok ("ref" ++ str_of_nat (length bibtex_entries + 1)).
Proof.
  intros Hfind Hfalse. unfold entry_key_of. now rewrite Hfind, Hfalse.
Qed.

Lemma convert_records_raised self index record rest bibtex_entries e :
  convert_record self bibtex_entries record = Raise e ->
  convert_records self index (record :: rest) bibtex_entries
  = convert_records
      (append_error self
         ("Error processing record " ++ str_of_nat (index + 1) ++ ": "
            ++ str_exn e))
      (S index) rest bibtex_entries.
Proof. intros H. cbn [convert_records]. now rewrite H. Qed.

Lemma convert_records_dropped self index record rest bibtex_entries e :
  entry_type_map_get (entry_type_name_of record) "misc" = Raise e ->
  convert_records self index (record :: rest) bibtex_entries
  = convert_records
      (append_error self
         ("Error processing record " ++ str_of_nat (index + 1) ++ ": "
            ++ str_exn e))
      (S index) rest bibtex_entries.
Proof.
  intros H. apply convert_records_raised. now apply convert_record_dropped.
Qed.

Lemma convert_records_flag records :
  forall self index bibtex_entries,
    extract_styled_text (snd (convert_records self index records bibtex_entries))
    = extract_styled_text self.
Proof.
  induction records as [| record rest IH]; intros self index bibtex_entries.
  - reflexivity.
  - destruct (convert_record_view self bibtex_entries record)
      as [(entry_type & Hty & Hhd & _) | (e & _ & Hraise)].
    + rewrite (convert_records_kept _ _ _ _ _ _ Hty Hhd), IH.
      apply extract_fields_flag.
    + rewrite (convert_records_raised _ _ _ _ _ _ Hraise), IH. reflexivity.
Qed.

Lemma failed_same_flag self self' records :
  extract_styled_text self = extract_styled_text self' ->
  failed self records = failed self' records.
Proof.
  intros H. unfold failed. f_equal. apply filter_ext. intros record.
  now rewrite (extraction_fails_same_flag self self' record H).
Qed.

(** The loop only ever appends: to the entries and to the errors. *)
Lemma convert_records_appends records :
  forall self index bibtex_entries,
  exists added errors,
    fst (convert_records self index records bibtex_entries)
    = (bibtex_entries ++ added)%list
    /\ length added = produced records
    /\ conversion_errors (snd (convert_records self index records bibtex_entries))
       = (conversion_errors self ++ errors)%list
    /\ length errors = failed self records.
Proof.
  induction records as [| record rest IH]; intros self index bibtex_entries.
  - exists [], []. cbn. now rewrite !app_nil_r.
  - unfold produced, failed. cbn [filter].
    destruct (convert_record_view self bibtex_entries record)
      as [(entry_type & Hty & Hhd & Hkept) | (e & Hdrop & Hraise)].
    + rewrite Hkept. cbn [negb orb].
      rewrite (convert_records_kept _ _ _ _ _ _ Hty Hhd).
      destruct (IH (snd (_extract_fields_from_xml self record)) (S index)
                  (bibtex_entries
                     ++ [entry_text entry_type
                           (header_key record bibtex_entries)
                           (fst (_extract_fields_from_xml self record))])%list)
        as (added & errors & Hent & Hlen & Herr & Hfail).
      rewrite Hent, Herr, extract_fields_errors, <- !app_assoc.
      eexists; eexists; repeat split.
      * cbn [length app]. rewrite Hlen. reflexivity.
      * rewrite length_app, Hfail.
        rewrite (failed_same_flag _ self rest (extract_fields_flag self record)).
        unfold failed, extraction_fails, extraction_errors.
        destruct (extract_fields_body self record); reflexivity.
    + rewrite Hdrop. cbn [negb orb].
      rewrite (convert_records_raised _ _ _ _ _ _ Hraise).
      destruct (IH (append_error self
                      ("Error processing record " ++ str_of_nat (index + 1)
                         ++ ": " ++ str_exn e))
                  (S index) bibtex_entries)
        as (added & errors & Hent & Hlen & Herr & Hfail).
      rewrite Hent, Herr. cbn [append_error conversion_errors].
      rewrite <- app_assoc.
      eexists; eexists; repeat split.
      * exact Hlen.
      * cbn [length app]. rewrite Hfail.
        f_equal. apply (failed_same_flag _ self). reflexivity.
Qed.

Lemma convert_records_app pre :
  forall self index post bibtex_entries,
    convert_records self index (pre ++ post) bibtex_entries
    = convert_records
        (snd (convert_records self index pre bibtex_entries))
        (index + length pre) post
        (fst (convert_records self index pre bibtex_entries)).
Proof.
  induction pre as [| record pre IH]; intros self index post bibtex_entries.
  - cbn. now rewrite Nat.add_0_r.
  - cbn [app length convert_records].
    replace (index + S (length pre)) with (S index + length pre) by lia.
    destruct (convert_record self bibtex_entries record) as [[entry self'] | e];
      now rewrite IH.
Qed.

(** The entry written for a record that is not dropped sits right after
    the entries produced before it, and its key counts those. *)
Lemma nth_entry self index pre record rest entry_type :
  entry_type_map_get (entry_type_name_of record) "misc" = Ok entry_type ->
  header_raises record = false ->
  exists produced_before,
    length produced_before = produced pre
    /\ nth_error (fst (convert_records self index (pre ++ record :: rest) []))
                 (produced pre)
       = Some (entry_text entry_type (header_key record produced_before)
                 (fst (_extract_fields_from_xml self record))).
Proof.
  intros Hty Hhd.
  rewrite convert_records_app.
  destruct (convert_records_appends pre self index [])
    as (added & errors & Hent & Hlen & _ & _).
  pose proof (convert_records_flag pre self index []) as Hflag.
  destruct (convert_records self index pre []) as [es1 s1].
  cbn [fst snd app] in *. subst es1.
  exists added. split; [exact Hlen |].
  rewrite (convert_records_kept _ _ _ _ _ _ Hty Hhd).
  match goal with
  | |- context [convert_records ?s ?i rest ?es] =>
      destruct (convert_records_appends rest s i es)
        as (added2 & errors2 & Hent2 & _ & _ & _)
  end.
  rewrite Hent2, <- app_assoc, <- Hlen.
  rewrite nth_error_app2 by lia. rewrite Nat.sub_diag. cbn [nth_error app].
  now rewrite (extract_fields_fst_same_flag s1 self record Hflag).
Qed.

Lemma required_lines_nil required_fields :
  required_lines [] required_fields = [].
Proof.
  unfold required_lines.
  induction required_fields as [| field rest IH]; simpl; auto.
Qed.

Lemma entry_text_no_fields entry_type entry_key :
  entry_text entry_type entry_key []
  = "@" ++ entry_type ++ "{" ++ entry_key ++ nl ++ "}".
Proof.
  unfold entry_text. now rewrite required_lines_nil.
Qed.

Lemma produced_app pre post :
  produced (pre ++ post) = produced pre + produced post.
Proof. unfold produced. now rewrite filter_app, length_app. Qed.

Lemma failed_app self pre post :
  failed self (pre ++ post) = failed self pre + failed self post.
Proof. unfold failed. now rewrite filter_app, length_app. Qed.

(** The text [convert_root] returns once the loop has produced entries. *)
Lemma convert_root_output self xml_root records :
  records
  = findall (if is_some (find [Desc "records"; Child "record"] xml_root)
             then [Desc "records"; Child "record"]
             else [Desc "record"]) xml_root ->
  fst (convert_records self 0 records []) <> [] ->
  convert_root self xml_root
  = (String.concat (nl ++ nl) (fst (convert_records self 0 records [])),
      snd (convert_records self 0 records [])).
Proof.
  intros -> Hne. unfold convert_root.
  match goal with
  | |- context [is_nil (findall ?p xml_root)] =>
      destruct (findall p xml_root) as [| record rest] eqn:Hrecords
  end.
  - now contradiction Hne.
  - cbn [is_nil].
    destruct (convert_records self 0 (record :: rest) []) as [entries self'].
    cbn [fst snd] in *.
    destruct entries; [now contradiction Hne | reflexivity].
Qed.

Lemma bind_Ok {A B : Type} (m : result A) (k : A -> result B) (b : B) :
  bind m k = Ok b -> exists a, m = Ok a /\ k a = Ok b.
Proof. destruct m as [a | e]; simpl; [eauto | discriminate]. Qed.

Lemma get_set_same {V : Type} (d : Dict.dict V) k v :
  Dict.get (Dict.set d k v) k = Some v.
Proof.
  induction d as [| [k' v'] d IH]; simpl.
  - now rewrite String.eqb_refl.
  - destruct (k' =? k) eqn:E; simpl; now rewrite E.
Qed.

Lemma get_set_other {V : Type} (d : Dict.dict V) k k' v :
  (k' =? k) = false -> Dict.get (Dict.set d k' v) k = Dict.get d k.
Proof.
  intros Hne. induction d as [| [k0 v0] d IH]; simpl.
  - now rewrite Hne.
  - destruct (String.eqb_spec k0 k') as [-> | _]; simpl.
    + now rewrite Hne.
    + now rewrite IH.
Qed.

Lemma empty_result_text self elem :
  empty_result self elem ->
  _extract_text_from_styled_element self elem = Ok (PyStr "").
Proof. now intros [-> | H]. Qed.

Lemma extract_single_other self elem key fields fields' k :
  extract_single self elem key fields = Ok fields' ->
  (key =? k) = false ->
  Dict.get fields' k = Dict.get fields k.
Proof.
  unfold extract_single. intros H Hne.
  destruct elem as [el |]; [| now injection H as <-].
  destruct (_extract_text_from_styled_element self (Some el)) as [t |];
    cbn [bind] in H; [| discriminate].
  destruct (truthy t); [| now injection H as <-].
  destruct (py_strip t) as [v |]; cbn [bind] in H; [| discriminate].
  injection H as <-. now apply get_set_other.
Qed.

Lemma extract_single_empty self elem key fields fields' :
  extract_single self elem key fields = Ok fields' ->
  empty_result self elem ->
  fields' = fields.
Proof.
  unfold extract_single. intros H Hempty.
  apply empty_result_text in Hempty.
  destruct elem as [el |]; [| now injection H].
  rewrite Hempty in H. cbn in H. now injection H.
Qed.

Lemma extract_single_value self elem key fields fields' s :
  extract_single self elem key fields = Ok fields' ->
  _extract_text_from_styled_element self elem = Ok (PyStr s) ->
  s <> "" ->
  fields' = Dict.set fields key (strip s).
Proof.
  unfold extract_single. intros H Htext Hne.
  destruct elem as [el |].
  - rewrite Htext in H. cbn [bind truthy] in H.
    apply String.eqb_neq in Hne. rewrite Hne in H. cbn in H.
    now injection H.
  - cbn in Htext. injection Htext as <-. now contradiction Hne.
Qed.

Lemma collect_texts_empty self elems :
  Forall (fun e => empty_result self (Some e)) elems ->
  forall names, collect_texts self elems names = Ok names.
Proof.
  induction 1 as [| e rest He _ IH]; intros names; cbn [collect_texts].
  - reflexivity.
  - rewrite (empty_result_text _ _ He). cbn. apply IH.
Qed.

Lemma extract_authors_other self record fields fields' k :
  extract_authors self record fields = Ok fields' ->
  ("author" =? k) = false ->
  Dict.get fields' k = Dict.get fields k.
Proof.
  unfold extract_authors. intros H Hne.
  destruct (find _ record) as [authors_elem |]; [| now injection H as <-].
  destruct (collect_texts self _ []) as [[| name names] |];
    cbn [bind] in H; try discriminate; injection H as <-;
    [reflexivity | now apply get_set_other].
Qed.

Lemma extract_authors_empty self record fields fields' :
  extract_authors self record fields = Ok fields' ->
  no_author_names self record ->
  fields' = fields.
Proof.
  unfold extract_authors, no_author_names. intros H Hnone.
  destruct (find _ record) as [authors_elem |]; [| now injection H].
  rewrite (collect_texts_empty _ _ Hnone) in H. now injection H.
Qed.

Lemma extract_keywords_other self record fields fields' k :
  extract_keywords self record fields = Ok fields' ->
  ("keywords" =? k) = false ->
  Dict.get fields' k = Dict.get fields k.
Proof.
  unfold extract_keywords. intros H Hne.
  destruct (findall _ record) as [| kw kws]; [now injection H as <- |].
  destruct (collect_texts self _ []) as [[| name names] |];
    cbn [bind] in H; try discriminate; injection H as <-;
    [reflexivity | now apply get_set_other].
Qed.

Lemma extract_keywords_empty self record fields fields' :
  extract_keywords self record fields = Ok fields' ->
  no_keywords self record ->
  fields' = fields.
Proof.
  unfold extract_keywords, no_keywords. intros H Hnone.
  destruct (findall _ record) as [| kw kws]; [now injection H |].
  rewrite (collect_texts_empty _ _ Hnone) in H. now injection H.
Qed.

Lemma extract_secondary_other self record fields fields' k :
  extract_secondary self record fields = Ok fields' ->
  ("journal" =? k) = false ->
  ("booktitle" =? k) = false ->
  Dict.get fields' k = Dict.get fields k.
Proof.
  unfold extract_secondary. intros H Hj Hb.
  destruct (find [Desc "titles"; Child "secondary-title"] record) as [sec |];
    [| now injection H as <-].
  destruct (_extract_text_from_styled_element self (Some sec)) as [t |];
    cbn [bind] in H; [| discriminate].
  destruct (truthy t); [| now injection H as <-].
  destruct (find [Desc "ref-type"] record) as [ref_type_elem |];
    [| now injection H as <-].
  destruct (Dict.get (attrib ref_type_elem) "name") as [name |];
    [| now injection H as <-].
  destruct (eq_str name "Journal Article");
    (destruct (py_strip t) as [v |]; cbn [bind] in H; [| discriminate]);
    injection H as <-; now apply get_set_other.
Qed.

Lemma extract_secondary_empty self record fields fields' :
  extract_secondary self record fields = Ok fields' ->
  empty_result self (find [Desc "titles"; Child "secondary-title"] record) ->
  fields' = fields.
Proof.
  unfold extract_secondary. intros H Hempty.
  apply empty_result_text in Hempty.
  destruct (find [Desc "titles"; Child "secondary-title"] record) as [sec |];
    [| now injection H].
  rewrite Hempty in H. cbn in H. now injection H.
Qed.

(** Splits a successful run of the extraction body into its steps. *)
Ltac split_steps H :=
  unfold extract_fields_body, extra_tags in H;
  cbn [extract_extras] in H;
  repeat
    (apply bind_Ok in H;
     let fields := fresh "fields" in
     let Hstep := fresh "Hstep" in
     destruct H as (fields & Hstep & H));
  injection H as H; subst.

(** Moves [Dict.get fields' k] back over every step that writes another
    field than [k]. *)
Ltac skip_steps :=
  repeat
    match goal with
    | H : extract_single _ _ _ _ = Ok ?f |- context [Dict.get ?f ?k] =>
        rewrite (extract_single_other _ _ _ _ _ k H eq_refl)
    | H : extract_authors _ _ _ = Ok ?f |- context [Dict.get ?f ?k] =>
        rewrite (extract_authors_other _ _ _ _ k H eq_refl)
    | H : extract_keywords _ _ _ = Ok ?f |- context [Dict.get ?f ?k] =>
        rewrite (extract_keywords_other _ _ _ _ k H eq_refl)
    | H : extract_secondary _ _ _ = Ok ?f |- context [Dict.get ?f ?k] =>
        rewrite (extract_secondary_other _ _ _ _ k H eq_refl eq_refl)
    end.

Ltac all_cases Hin :=
  cbn [In single_valued] in Hin;
  repeat (destruct Hin as [Hin | Hin]; [injection Hin as <- <- |]);
  [.. | contradiction].

Lemma single_valued_empty self record fields key path :
  extract_fields_body self record = Ok fields ->
  In (key, path) single_valued ->
  empty_result self (find path record) ->
  Dict.get fields key = None.
Proof.
  intros Hbody Hin Hempty. split_steps Hbody.
  all_cases Hin; skip_steps;
    match goal with
    | H : extract_single _ ?elem _ _ = Ok ?f,
      He : empty_result _ ?elem |- context [Dict.get ?f _] =>
        rewrite (extract_single_empty _ _ _ _ _ H He)
    end;
    skip_steps; reflexivity.
Qed.

Lemma single_valued_value self record fields key path s :
  extract_fields_body self record = Ok fields ->
  In (key, path) single_valued ->
  _extract_text_from_styled_element self (find path record) = Ok (PyStr s) ->
  s <> "" ->
  Dict.get fields key = Some (strip s).
Proof.
  intros Hbody Hin Htext Hne. split_steps Hbody.
  all_cases Hin; skip_steps;
    match goal with
    | H : extract_single _ ?elem _ _ = Ok ?f,
      Ht : _extract_text_from_styled_element _ ?elem = _
      |- context [Dict.get ?f _] =>
        rewrite (extract_single_value _ _ _ _ _ _ H Ht Hne)
    end;
    apply get_set_same.
Qed.

Lemma venue_empty self record fields :
  extract_fields_body self record = Ok fields ->
  empty_result self (find [Desc "titles"; Child "secondary-title"] record) ->
  Dict.get fields "journal" = None /\ Dict.get fields "booktitle" = None.
Proof.
  intros Hbody Hempty. split_steps Hbody.
  split; skip_steps;
    match goal with
    | H : extract_secondary _ _ _ = Ok ?f |- context [Dict.get ?f _] =>
        rewrite (extract_secondary_empty _ _ _ _ H Hempty)
    end;
    skip_steps; reflexivity.
Qed.

Lemma author_empty self record fields :
  extract_fields_body self record = Ok fields ->
  no_author_names self record ->
  Dict.get fields "author" = None.
Proof.
  intros Hbody Hnone. split_steps Hbody. skip_steps.
  match goal with
  | H : extract_authors _ _ _ = Ok ?f |- context [Dict.get ?f _] =>
      rewrite (extract_authors_empty _ _ _ _ H Hnone)
  end.
  skip_steps. reflexivity.
Qed.

Lemma keywords_empty self record fields :
  extract_fields_body self record = Ok fields ->
  no_keywords self record ->
  Dict.get fields "keywords" = None.
Proof.
  intros Hbody Hnone. split_steps Hbody. skip_steps.
  match goal with
  | H : extract_keywords _ _ _ = Ok ?f |- context [Dict.get ?f _] =>
      rewrite (extract_keywords_empty _ _ _ _ H Hnone)
  end.
  skip_steps. reflexivity.
Qed.

(** Absent or empty results leave no field; other results are stored
    trimmed. *)
Lemma stored_iff_not_empty self record :
  let fields := fst (_extract_fields_from_xml self record) in
  (forall key path,
      In (key, path) single_valued ->
      empty_result self (find path record) ->
      Dict.get fields key = None)
  /\ (forall key path s,
        In (key, path) single_valued ->
        extraction_fails self record = false ->
        _extract_text_from_styled_element self (find path record)
        = Ok (PyStr s) ->
        s <> "" ->
        Dict.get fields key = Some (strip s)).
Proof.
  intros fields. subst fields.
  unfold _extract_fields_from_xml, extraction_fails.
  destruct (extract_fields_body self record) as [fields | e] eqn:Hbody;
    cbn [fst raises].
  - split.
    + intros key path. now apply single_valued_empty with (1 := Hbody).
    + intros key path s Hin _. now apply single_valued_value with (1 := Hbody).
  - split; [reflexivity | discriminate].
Qed.

Lemma join_from_parts styles parts :
  Forall2 (fun style part =>
             text style = PyStr part \/ (text style = PyNone /\ part = ""))
          styles parts ->
  forall i, join_from i "" (map text_or_empty styles) = Ok parts.
Proof.
  induction 1 as [| style part styles parts Htext _ IH]; intros i;
    cbn [map join_from].
  - reflexivity.
  - assert (Hstyle : text_or_empty style = PyStr part).
    { unfold text_or_empty.
      destruct Htext as [-> | [-> ->]]; [| reflexivity].
      cbn. now destruct (String.eqb_spec part "") as [-> |]. }
    rewrite Hstyle, IH. reflexivity.
Qed.

(** With a [ref-type] element that carries a [name], a non-empty secondary
    title goes to [journal] for the name "Journal Article" and to
    [booktitle] for any other. *)
Lemma venue_routed self record fields secondary_title ref_type_elem name s :
  find [Desc "titles"; Child "secondary-title"] record = Some secondary_title ->
  _extract_text_from_styled_element self (Some secondary_title)
  = Ok (PyStr s) ->
  s <> "" ->
  find [Desc "ref-type"] record = Some ref_type_elem ->
  Dict.get (attrib ref_type_elem) "name" = Some name ->
  extract_secondary self record fields
  = Ok (Dict.set fields
          (if eq_str name "Journal Article" then "journal" else "booktitle")
          (strip s)).
Proof.
  intros Hsec Htext Hne Hrt Hname. unfold extract_secondary.
  rewrite Hsec, Htext, Hrt, Hname. cbn [bind truthy].
  apply String.eqb_neq in Hne. rewrite Hne. cbn [negb].
  now destruct (eq_str name "Journal Article").
Qed.

(** Without such an element the step leaves the FieldSet as it was, whatever
    the label the record is typed with. *)
Lemma venue_not_routed self record fields fields' :
  find [Desc "ref-type"] record = None
  \/ (exists ref_type_elem,
        find [Desc "ref-type"] record = Some ref_type_elem
        /\ Dict.get (attrib ref_type_elem) "name" = None) ->
  extract_secondary self record fields = Ok fields' ->
  fields' = fields.
Proof.
  intros Hnone. unfold extract_secondary.
  destruct (find [Desc "titles"; Child "secondary-title"] record) as [sec |];
    [| now intros [= <-]].
  destruct (_extract_text_from_styled_element self (Some sec)) as [t |];
    cbn [bind]; [| discriminate].
  destruct (truthy t); [| now intros [= <-]].
  destruct Hnone as [-> | (e & -> & ->)]; now intros [= <-].
Qed.


(** Hence such a record, whatever its label, has neither venue field. *)
Lemma venue_lost self record :
  find [Desc "ref-type"] record = None
  \/ (exists ref_type_elem,
        find [Desc "ref-type"] record = Some ref_type_elem
        /\ Dict.get (attrib ref_type_elem) "name" = None) ->
  Dict.get (fst (_extract_fields_from_xml self record)) "journal" = None
  /\ Dict.get (fst (_extract_fields_from_xml self record)) "booktitle" = None.
Proof.
  intros Hnone. unfold _extract_fields_from_xml.
  destruct (extract_fields_body self record) as [fields | e] eqn:Hbody;
    cbn [fst]; [| now split].
  split_steps Hbody.
  split; skip_steps;
    match goal with
    | H : extract_secondary _ _ _ = Ok ?f |- context [Dict.get ?f _] =>
        rewrite (venue_not_routed _ _ _ _ Hnone H)
    end;
    skip_steps; reflexivity.
Qed.

(** *** Trees built by the parser never make the converter raise *)

Lemma Element_induction (P : Element -> Prop) :
  (forall t a x cs, Forall P cs -> P (mkElement t a x cs)) ->
  forall e, P e.
Proof.
  intros H.
  exact (fix IH (e : Element) : P e :=
           match e with
           | mkElement t a x cs =>
               H t a x cs
                 ((fix go (l : list Element) : Forall P l :=
                     match l with
                     | [] => Forall_nil P
                     | c :: l' => Forall_cons c (IH c) (go l')
                     end) cs)
           end).
Qed.

Lemma parsed_children e :
  parsed e = true -> Forall (fun c => parsed c = true) (children e).
Proof.
  destruct e as [t a x cs]. cbn [parsed children].
  rewrite !andb_true_iff. intros [_ Hcs].
  rewrite Forall_forall. now apply forallb_forall.
Qed.

Lemma parsed_iter e :
  parsed e = true -> Forall (fun d => parsed d = true) (iter e).
Proof.
  induction e as [t a x cs IH] using Element_induction. intros He.
  cbn [iter children]. constructor; [exact He |].
  apply parsed_children in He. cbn [children] in He.
  rewrite Forall_forall in *. intros d Hd.
  apply in_flat_map in Hd. destruct Hd as (c & Hc & Hd).
  specialize (IH c Hc (He c Hc)). rewrite Forall_forall in IH. now apply IH.
Qed.

Lemma parsed_select s elems :
  Forall (fun e => parsed e = true) elems ->
  Forall (fun e => parsed e = true) (select s elems).
Proof.
  rewrite !Forall_forall. intros Hall d Hd.
  destruct s as [t | t]; cbn [select] in Hd;
    apply in_flat_map in Hd; destruct Hd as (e & He & Hd);
    apply filter_In in Hd; destruct Hd as [Hd _];
    pose proof (parsed_children e (Hall e He)) as Hcs;
    rewrite Forall_forall in Hcs.
  - apply in_flat_map in Hd. destruct Hd as (c & Hc & Hd).
    pose proof (parsed_iter c (Hcs c Hc)) as Hit.
    rewrite Forall_forall in Hit. now apply Hit.
  - now apply Hcs.
Qed.

Lemma parsed_findall path e :
  parsed e = true -> Forall (fun d => parsed d = true) (findall path e).
Proof.
  intros He. unfold findall.
  assert (Hstart : Forall (fun d => parsed d = true) [e]) by now constructor.
  revert Hstart. generalize [e] as elems.
  induction path as [| s path IH]; intros elems Hall; cbn [fold_left].
  - exact Hall.
  - apply IH. now apply parsed_select.
Qed.

Lemma parsed_find path e el :
  parsed e = true -> find path e = Some el -> parsed el = true.
Proof.
  intros He Hfind. pose proof (parsed_findall path e He) as Hall.
  unfold find in Hfind.
  destruct (findall path e) as [| d ds]; [discriminate |].
  injection Hfind as ->. now inversion Hall.
Qed.

Lemma parsed_text_or_empty e :
  parsed e = true -> exists s, text_or_empty e = PyStr s.
Proof.
  destruct e as [t a x cs]. cbn [parsed text]. unfold text_or_empty.
  cbn [text]. rewrite !andb_true_iff. intros [[Hx _] _].
  destruct x; try discriminate; cbn; eauto.
  destruct (s =? ""); cbn; eauto.
Qed.

Lemma parsed_join_from elems :
  Forall (fun e => parsed e = true) elems ->
  forall i, exists l, join_from i "" (map text_or_empty elems) = Ok l.
Proof.
  induction 1 as [| e rest He _ IH]; intros i; cbn [map join_from].
  - now exists [].
  - destruct (parsed_text_or_empty e He) as [s ->].
    destruct (IH (S i)) as [l ->]. cbn. eauto.
Qed.

Lemma parsed_extract_text self el :
  parsed el = true ->
  exists s, _extract_text_from_styled_element self (Some el) = Ok (PyStr s).
Proof.
  intros He. unfold _extract_text_from_styled_element.
  destruct (extract_styled_text self && is_some (find [Desc "style"] el)).
  - unfold join.
    destruct (parsed_join_from _ (parsed_findall [Desc "style"] el He) 0)
      as [l ->].
    cbn. eauto.
  - destruct (parsed_text_or_empty el He) as [s ->]. eauto.
Qed.

Lemma parsed_extract_single self elem key fields :
  (forall el, elem = Some el -> parsed el = true) ->
  exists fields', extract_single self elem key fields = Ok fields'.
Proof.
  intros He. unfold extract_single.
  destruct elem as [el |]; [| eauto].
  destruct (parsed_extract_text self el (He el eq_refl)) as [s ->].
  cbn [bind]. destruct (truthy (PyStr s)); cbn; eauto.
Qed.

Lemma parsed_collect_texts self elems :
  Forall (fun e => parsed e = true) elems ->
  forall names, exists names', collect_texts self elems names = Ok names'.
Proof.
  induction 1 as [| e rest He _ IH]; intros names; cbn [collect_texts].
  - eauto.
  - destruct (parsed_extract_text self e He) as [s ->]. cbn [bind].
    destruct (truthy (PyStr s)); cbn [py_strip bind]; apply IH.
Qed.

Lemma parsed_extract_authors self record fields :
  parsed record = true ->
  exists fields', extract_authors self record fields = Ok fields'.
Proof.
  intros Hr. unfold extract_authors.
  destruct (find _ record) as [authors_elem |] eqn:Hfind; [| eauto].
  pose proof (parsed_find _ _ _ Hr Hfind) as Ha.
  destruct (parsed_collect_texts self _
              (parsed_findall [Desc "author"] authors_elem Ha) [])
    as [names ->].
  cbn [bind]. destruct names; eauto.
Qed.

Lemma parsed_extract_keywords self record fields :
  parsed record = true ->
  exists fields', extract_keywords self record fields = Ok fields'.
Proof.
  intros Hr. unfold extract_keywords.
  pose proof (parsed_findall [Desc "keywords"; Child "keyword"] record Hr)
    as Hall.
  destruct (findall _ record) as [| kw kws]; [eauto |].
  destruct (parsed_collect_texts self _ Hall []) as [names ->].
  cbn [bind]. destruct names; eauto.
Qed.

Lemma parsed_extract_secondary self record fields :
  parsed record = true ->
  exists fields', extract_secondary self record fields = Ok fields'.
Proof.
  intros Hr. unfold extract_secondary.
  destruct (find [Desc "titles"; Child "secondary-title"] record)
    as [sec |] eqn:Hfind; [| eauto].
  destruct (parsed_extract_text self sec (parsed_find _ _ _ Hr Hfind))
    as [s ->].
  cbn [bind]. destruct (truthy (PyStr s)); [| eauto].
  destruct (find [Desc "ref-type"] record) as [ref_type_elem |]; [| eauto].
  destruct (Dict.get (attrib ref_type_elem) "name") as [name |]; [| eauto].
  destruct (eq_str name "Journal Article"); cbn; eauto.
Qed.

Lemma parsed_extract_fields_body self record :
  parsed record = true ->
  exists fields, extract_fields_body self record = Ok fields.
Proof.
  intros Hr. unfold extract_fields_body, extra_tags. cbn [extract_extras].
  repeat
    match goal with
    | |- exists _, bind (extract_single ?s (find ?p record) ?k ?f) _ = _ =>
        destruct (parsed_extract_single s (find p record) k f
                    (fun el => parsed_find p record el Hr)) as [? ->]
    | |- exists _, bind (extract_authors ?s record ?f) _ = _ =>
        destruct (parsed_extract_authors s record f Hr) as [? ->]
    | |- exists _, bind (extract_secondary ?s record ?f) _ = _ =>
        destruct (parsed_extract_secondary s record f Hr) as [? ->]
    | |- exists _, bind (extract_keywords ?s record ?f) _ = _ =>
        destruct (parsed_extract_keywords s record f Hr) as [? ->]
    | |- _ => progress cbn [bind]
    end.
  eauto.
Qed.

Lemma parsed_attrib e k v :
  parsed e = true -> Dict.get (attrib e) k = Some v -> is_str v = true.
Proof.
  destruct e as [t a x cs]. cbn [parsed attrib].
  rewrite !andb_true_iff, forallb_forall. intros [[_ Ha] _] Hget.
  apply get_Some_In in Hget. exact (Ha (k, v) Hget).
Qed.

Lemma parsed_entry_type_name record :
  parsed record = true -> is_str (entry_type_name_of record) = true.
Proof.
  intros Hr. unfold entry_type_name_of, Dict.get_default.
  assert (Hown : is_str match Dict.get (attrib record) "ref-type" with
                        | Some v => v
                        | None => PyStr "Generic"
                        end = true).
  { destruct (Dict.get (attrib record) "ref-type") eqn:Hget;
      [exact (parsed_attrib _ _ _ Hr Hget) | reflexivity]. }
  destruct (find [Desc "ref-type"] record) as [e |] eqn:Hfind; [| exact Hown].
  destruct (Dict.get (attrib e) "name") eqn:Hname; [| exact Hown].
  exact (parsed_attrib _ _ _ (parsed_find _ _ _ Hr Hfind) Hname).
Qed.

Lemma parsed_is_text e : parsed e = true -> is_text (text e) = true.
Proof.
  destruct e as [t a x cs]. cbn [parsed text].
  rewrite !andb_true_iff. now intros [[Hx _] _].
Qed.

(** The key text of a parsed record is [None] or a string, and the header
    is written. *)
Lemma parsed_header record :
  parsed record = true -> header_raises record = false.
Proof.
  intros Hr. unfold header_raises, entry_key_of.
  destruct (find [Desc "rec-number"] record) as [key_elem |] eqn:Hfind;
    [| reflexivity].
  pose proof (parsed_is_text _ (parsed_find _ _ _ Hr Hfind)) as Htext.
  destruct (text key_elem) as [| s | z |]; try discriminate;
    [reflexivity |].
  now destruct (truthy (PyStr s)).
Qed.

(** A record of a parsed document is neither dropped nor short of its
    fields. *)
Lemma parsed_record_never_fails self record :
  parsed record = true ->
  record_dropped record = false /\ extraction_fails self record = false.
Proof.
  intros Hr. split.
  - unfold record_dropped. apply orb_false_iff. split.
    + unfold lookup_raises.
      pose proof (parsed_entry_type_name record Hr) as H.
      now destruct (entry_type_name_of record).
    + now apply parsed_header.
  - unfold extraction_fails.
    now destruct (parsed_extract_fields_body self record Hr) as [fields ->].
Qed.

Lemma parsed_counts self records :
  Forall (fun record => parsed record = true) records ->
  produced records = length records /\ failed self records = 0.
Proof.
  unfold produced, failed.
  induction 1 as [| record rest Hr _ [IH1 IH2]]; [auto |].
  destruct (parsed_record_never_fails self record Hr) as [Hd Hf].
  cbn [filter]. rewrite Hd, Hf. cbn [negb orb length]. auto.
Qed.

(** On a parsed document the loop writes one entry per record and no
    error. *)
Lemma parsed_document_all_entries self index records bibtex_entries :
  Forall (fun record => parsed record = true) records ->
  length (fst (convert_records self index records bibtex_entries))
  = length bibtex_entries + length records
  /\ conversion_errors (snd (convert_records self index records bibtex_entries))
     = conversion_errors self.
Proof.
  intros Hall.
  destruct (parsed_counts self records Hall) as [Hprod Hfailed].
  destruct (convert_records_appends records self index bibtex_entries)
    as (added & errors & -> & Hlen & -> & Hnerr).
  rewrite length_app, Hlen, Hprod. split; [reflexivity |].
  rewrite Hfailed in Hnerr. destruct errors; [| discriminate].
  now rewrite app_nil_r.
Qed.

(** *** The whole conversion *)

Lemma convert_root_records self xml_root :
  convert_root self xml_root
  = if is_nil (records_of xml_root)
    then ("", append_error self "No records found in XML data")
    else
      let '(bibtex_entries, self) :=
        convert_records self 0 (records_of xml_root) [] in
      if is_nil bibtex_entries && negb (is_nil (conversion_errors self))
      then ("", self)
      else (String.concat (nl ++ nl) bibtex_entries, self).
Proof. reflexivity. Qed.

Lemma convert_to_bibtex_root fromstring self xml_data xml_root :
  root_of fromstring xml_data = Some xml_root ->
  convert_to_bibtex fromstring self xml_data
  = convert_root (reset_errors self) xml_root.
Proof.
  unfold root_of, convert_to_bibtex.
  destruct xml_data as [s | e | o]; [| now intros [= ->] | discriminate].
  destruct (fromstring s); [now intros [= ->] | discriminate].
Qed.

(** A property of every entry text holds of every entry the loop writes. *)
Lemma convert_records_Forall (Q : string -> Prop) records :
  forall self index bibtex_entries,
    Forall Q bibtex_entries ->
    (forall record produced_before entry_type entry_key,
        In record records ->
        entry_type_map_get (entry_type_name_of record) "misc" = Ok entry_type ->
        format (entry_key_of record produced_before) = Ok entry_key ->
        Q (entry_text entry_type entry_key
             (fst (_extract_fields_from_xml self record)))) ->
    Forall Q (fst (convert_records self index records bibtex_entries)).
Proof.
  induction records as [| record rest IH];
    intros self index bibtex_entries Hdone Hnew.
  - exact Hdone.
  - destruct (convert_record_view self bibtex_entries record)
      as [(entry_type & Hty & Hhd & _) | (e & _ & Hraise)].
    + rewrite (convert_records_kept _ _ _ _ _ _ Hty Hhd). apply IH.
      * apply Forall_app. split; [assumption |].
        constructor; [| constructor].
        apply Hnew with (produced_before := bibtex_entries);
          [now left | assumption | now apply format_header_key].
      * intros r before ty key Hin Hr Hkey.
        rewrite (extract_fields_fst_same_flag _ self r
                   (extract_fields_flag self record)).
        now apply Hnew with (produced_before := before); [right | |].
    + rewrite (convert_records_raised _ _ _ _ _ _ Hraise). apply IH.
      * assumption.
      * intros r before ty key Hin Hr Hkey.
        match goal with
        | |- context [_extract_fields_from_xml ?s r] =>
            rewrite (extract_fields_fst_same_flag s self r eq_refl)
        end.
        now apply Hnew with (produced_before := before); [right | |].
Qed.

Lemma convert_records_start_with_at self index records :
  Forall (fun entry => exists tail, entry = "@" ++ tail)
         (fst (convert_records self index records [])).
Proof.
  apply convert_records_Forall; [constructor |].
  intros record before entry_type entry_key _ _ _. unfold entry_text. eauto.
Qed.

Lemma extract_fields_reset self record :
  reset_errors (snd (_extract_fields_from_xml self record))
  = reset_errors self.
Proof.
  unfold _extract_fields_from_xml.
  now destruct (extract_fields_body self record).
Qed.

Lemma convert_records_reset records :
  forall self index bibtex_entries,
    reset_errors (snd (convert_records self index records bibtex_entries))
    = reset_errors self.
Proof.
  induction records as [| record rest IH]; intros self index bibtex_entries.
  - reflexivity.
  - destruct (convert_record_view self bibtex_entries record)
      as [(entry_type & Hty & Hhd & _) | (e & _ & Hraise)].
    + rewrite (convert_records_kept _ _ _ _ _ _ Hty Hhd), IH.
      apply extract_fields_reset.
    + now rewrite (convert_records_raised _ _ _ _ _ _ Hraise), IH.
Qed.

Lemma reset_errors_nil self :
  conversion_errors self = [] -> reset_errors self = self.
Proof. destruct self as [sw flag errors]. cbn. now intros ->. Qed.

Lemma concat_starts_with_at sep entry entries :
  (exists tail, entry = "@" ++ tail) ->
  String.concat sep (entry :: entries) <> "".
Proof.
  intros [tail ->]. cbn [String.concat].
  destruct entries; cbn; discriminate.
Qed.

Lemma XML_eq (a b : XML) :
  reset_errors a = reset_errors b ->
  conversion_errors a = conversion_errors b ->
  a = b.
Proof.
  destruct a, b. cbn. intros [= -> ->] ->. reflexivity.
Qed.

(** ** The claims *)



(** C2 (where the code departs from it): with no [ref-type] element to read
    a [name] from, the secondary title is neither [journal] nor [booktitle]:
    it is lost.  The first record is labelled "Journal Article" by its own
    attribute, and is typed [article] from that very label; the second has
    no label at all, hence "Generic". *)
Lemma C2_venue_lost_without_ref_type_element :
  (entry_type_name_of Samples.attr_journal = PyStr "Journal Article"
   /\ _extract_fields_from_xml XML_init Samples.attr_journal = ([], XML_init)
   /\ convert_root XML_init (Samples.doc [Samples.attr_journal])
      = ("@article{ref1" ++ nl ++ "}", XML_init))
  /\ (entry_type_name_of Samples.unlabelled_venue = PyStr "Generic"
      /\ _extract_fields_from_xml XML_init Samples.unlabelled_venue
         = ([], XML_init)
      /\ convert_root XML_init (Samples.doc [Samples.unlabelled_venue])
         = ("@misc{ref1" ++ nl ++ "}", XML_init)).
Proof. repeat split; reflexivity. Qed.

(** C3 (as the code has it): a field whose extraction result is absent or
    empty is not in the FieldSet.  This holds for the sixteen single-valued
    fields, for the venue fields, for [author] when no author resolves to
    text and for [keywords] when no keyword does.  A result made of white
    space is not empty.  For each of the sixteen single-valued fields, and
    for these only, a result that is not empty is stored after trimming when
    the extraction pass does not fail: there, white space alone is stored as
    the empty string. *)
Theorem C3_empty_result_no_field :
  forall self record,
    let fields := fst (_extract_fields_from_xml self record) in
    (forall key path,
        In (key, path) single_valued ->
        empty_result self (find path record) ->
        Dict.get fields key = None)
    /\ (empty_result self
          (find [Desc "titles"; Child "secondary-title"] record) ->
        Dict.get fields "journal" = None /\ Dict.get fields "booktitle" = None)
    /\ (no_author_names self record -> Dict.get fields "author" = None)
    /\ (no_keywords self record -> Dict.get fields "keywords" = None)
    /\ (forall key path s,
          In (key, path) single_valued ->
          extraction_fails self record = false ->
          _extract_text_from_styled_element self (find path record)
          = Ok (PyStr s) ->
          s <> "" ->
          Dict.get fields key = Some (strip s)).
Proof.
  intros self record fields. subst fields.
  unfold _extract_fields_from_xml, extraction_fails.
  destruct (extract_fields_body self record) as [fields | e] eqn:Hbody;
    cbn [fst raises].
  - repeat split.
    + intros key path. now apply single_valued_empty with (1 := Hbody).
    + now apply venue_empty with (1 := Hbody).
    + now apply venue_empty with (1 := Hbody).
    + now apply author_empty with (1 := Hbody).
    + now apply keywords_empty with (1 := Hbody).
    + intros key path s Hin _. now apply single_valued_value with (1 := Hbody).
  - repeat split; try reflexivity. discriminate.
Qed.

Lemma C3_empty_result_no_field_witness :
  Dict.get (fst (_extract_fields_from_xml XML_init Samples.blank_title)) "year"
  = None
  /\ Dict.get (fst (_extract_fields_from_xml XML_init Samples.blank_title))
       "title"
     = Some "".
Proof.
  pose proof (C3_empty_result_no_field XML_init Samples.blank_title)
    as (Hempty & _ & _ & _ & Hvalue).
  split.
  - apply (Hempty "year" [Desc "dates"; Child "year"]).
    + cbn. tauto.
    + left. reflexivity.
  - apply (Hvalue "title" [Desc "titles"; Child "title"] " ").
    + cbn. tauto.
    + reflexivity.
    + reflexivity.
    + discriminate.
Defined.

(** C3 as worded fails: a title made of one blank is a white-space-only
    result, and the FieldSet holds [title] mapped to the empty string, which
    the entry shows as [title = {},]. *)
Lemma C3_counterexample :
  _extract_text_from_styled_element XML_init
    (find [Desc "titles"; Child "title"] Samples.blank_title)
  = Ok (PyStr " ")
  /\ isspace " " = true
  /\ fst (_extract_fields_from_xml XML_init Samples.blank_title)
     = [("title", "")]
  /\ Dict.get (fst (_extract_fields_from_xml XML_init Samples.blank_title))
       "title"
     <> None
  /\ fst (convert_root XML_init (Samples.doc [Samples.blank_title]))
     = "@misc{ref1" ++ nl ++ tab ++ "title = {}," ++ nl ++ "}".
Proof. repeat split; try reflexivity. discriminate. Qed.

(** C4: with the styled-text flag on, an element whose value is spread
    over [style] descendants and an element that holds the same characters as
    its own text resolve to the same string, so that the field they feed has
    the same FieldSet value in any two records whose extraction passes
    complete; with the flag off, every element resolves to its own text,
    [style] descendants or not. *)
Theorem C4_styled_text_equivalence :
  forall self styled plain parts,
    findall [Desc "style"] styled <> [] ->
    Forall2 (fun style part =>
               text style = PyStr part \/ (text style = PyNone /\ part = ""))
            (findall [Desc "style"] styled) parts ->
    findall [Desc "style"] plain = [] ->
    text plain = PyStr (String.concat "" parts) ->
    (extract_styled_text self = true ->
     _extract_text_from_styled_element self (Some styled)
     = Ok (PyStr (String.concat "" parts))
     /\ _extract_text_from_styled_element self (Some plain)
        = Ok (PyStr (String.concat "" parts))
     /\ forall key path record_s record_p,
         In (key, path) single_valued ->
         find path record_s = Some styled ->
         find path record_p = Some plain ->
         extraction_fails self record_s = false ->
         extraction_fails self record_p = false ->
         Dict.get (fst (_extract_fields_from_xml self record_s)) key
         = Dict.get (fst (_extract_fields_from_xml self record_p)) key)
    /\ (extract_styled_text self = false ->
        forall element,
          _extract_text_from_styled_element self (Some element)
          = Ok (if truthy (text element) then text element else PyStr "")).
Proof.
  intros self styled plain parts Hstyles Hparts Hnone Hplain.
  split.
  - intros Hflag.
    assert (Hs : _extract_text_from_styled_element self (Some styled)
                 = Ok (PyStr (String.concat "" parts))).
    { unfold _extract_text_from_styled_element, find, join.
      rewrite Hflag.
      destruct (findall [Desc "style"] styled) as [| style styles] eqn:Hall;
        [now contradiction Hstyles |].
      cbn [hd_error is_some andb].
      now rewrite (join_from_parts _ _ Hparts). }
    assert (Hp : _extract_text_from_styled_element self (Some plain)
                 = Ok (PyStr (String.concat "" parts))).
    { unfold _extract_text_from_styled_element, find, text_or_empty.
      rewrite Hnone, Hplain, andb_false_r. cbn [hd_error is_some truthy].
      now destruct (String.eqb_spec (String.concat "" parts) "") as [-> |]. }
    repeat split; [exact Hs | exact Hp |].
    intros key path record_s record_p Hin Hfs Hfp Hoks Hokp.
    rewrite <- Hfs in Hs. rewrite <- Hfp in Hp.
    destruct (string_dec (String.concat "" parts) "") as [Hempty | Hne].
    + rewrite Hempty in Hs, Hp.
      destruct (stored_iff_not_empty self record_s) as (Es & _).
      destruct (stored_iff_not_empty self record_p) as (Ep & _).
      rewrite (Es key path Hin (or_intror Hs)).
      now rewrite (Ep key path Hin (or_intror Hp)).
    + destruct (stored_iff_not_empty self record_s) as (_ & Vs).
      destruct (stored_iff_not_empty self record_p) as (_ & Vp).
      rewrite (Vs key path _ Hin Hoks Hs Hne).
      now rewrite (Vp key path _ Hin Hokp Hp Hne).
  - intros Hflag element.
    unfold _extract_text_from_styled_element. now rewrite Hflag.
Qed.

Lemma C4_styled_text_equivalence_witness :
  Dict.get (fst (_extract_fields_from_xml XML_init Samples.article)) "title"
  = Dict.get
      (fst (_extract_fields_from_xml XML_init
              (Samples.titled (PyStr "Literate Programming"))))
      "title".
Proof.
  refine
    (proj2 (proj2
       (proj1
          (C4_styled_text_equivalence XML_init
             (Samples.node "title"
                [ Samples.leaf "style" "Literate ";
                  Samples.leaf "style" "Programming" ])
             (mkElement "title" [] (PyStr "Literate Programming") [])
             ["Literate "; "Programming"] _ _ _ _)
          eq_refl))
       "title" [Desc "titles"; Child "title"] Samples.article
       (Samples.titled (PyStr "Literate Programming"))
       _ eq_refl eq_refl eq_refl eq_refl).
  - discriminate.
  - repeat constructor.
  - reflexivity.
  - reflexivity.
  - cbn. tauto.
Defined.

(** C5: the key of the entry written for a record is the text of its
    [rec-number] when that text is a non-empty string; when the record has no
    [rec-number], or one whose text is empty, the key is [ref<N>] with [N]
    one more than the number of entries produced for the records before it.
    Records that were dropped, their type lookup or their header having
    raised, are not counted, so [N] is not the record's position. *)
Theorem C5_entry_key :
  forall self index pre record rest entry_type,
    entry_type_map_get (entry_type_name_of record) "misc" = Ok entry_type ->
    let entries :=
      fst (convert_records self index (pre ++ record :: rest) []) in
    let fields := fst (_extract_fields_from_xml self record) in
    let N := produced pre + 1 in
    (forall key_elem s,
        find [Desc "rec-number"] record = Some key_elem ->
        text key_elem = PyStr s -> s <> "" ->
        nth_error entries (produced pre)
        = Some (entry_text entry_type s fields))
    /\ (find [Desc "rec-number"] record = None ->
        nth_error entries (produced pre)
        = Some (entry_text entry_type ("ref" ++ str_of_nat N) fields))
    /\ (forall key_elem,
          find [Desc "rec-number"] record = Some key_elem ->
          truthy (text key_elem) = false ->
          nth_error entries (produced pre)
          = Some (entry_text entry_type ("ref" ++ str_of_nat N) fields)).
Proof.
  intros self index pre record rest entry_type Hty entries fields N.
  subst entries fields N.
  assert (Hnth : forall entry_key,
             (forall produced_before,
                 length produced_before = produced pre ->
                 format (entry_key_of record produced_before) = Ok entry_key) ->
             nth_error
               (fst (convert_records self index (pre ++ record :: rest) []))
               (produced pre)
             = Some (entry_text entry_type entry_key
                       (fst (_extract_fields_from_xml self record)))).
  { intros entry_key Hkey.
    assert (Hhd : header_raises record = false).
    { destruct (convert_records_appends pre self index [])
        as (before & _ & Hent & Hlen & _).
      exact (proj1 (format_Ok_header _ _ _ (Hkey before Hlen))). }
    destruct (nth_entry self index pre record rest entry_type Hty Hhd)
      as (before & Hlen & ->).
    now rewrite (proj2 (format_Ok_header _ _ _ (Hkey before Hlen))). }
  repeat split.
  - intros key_elem s Hfind Htext Hne. apply Hnth. intros before _.
    now apply format_key_text with (key_elem := key_elem).
  - intros Hfind. apply Hnth. intros before <-.
    now apply format_key_missing.
  - intros key_elem Hfind Hfalse. apply Hnth. intros before <-.
    now apply format_key_empty with (key_elem := key_elem).
Qed.

Lemma C5_entry_key_witness :
  nth_error
    (fst (convert_records XML_init 0
            [Samples.keyless; Samples.unhashable_label; Samples.keyless] []))
    1
  = Some (entry_text "misc" "ref2" [("title", "Untitled")]).
Proof.
  exact (proj1 (proj2
           (C5_entry_key XML_init 0
              [Samples.keyless; Samples.unhashable_label] Samples.keyless []
              "misc" eq_refl))
           eq_refl).
Defined.

(** C6: when the parser rejects the input string, [convert_to_bibtex]
    returns the empty string and the error list holds exactly one error,
    which carries the parser's message. *)
Theorem C6_malformed_xml :
  forall (fromstring : string -> parse_result) (self : XML) (s msg : string),
    fromstring s = ParseError msg ->
    fst (convert_to_bibtex fromstring self (InStr s)) = ""
    /\ conversion_errors (snd (convert_to_bibtex fromstring self (InStr s)))
       = ["Error parsing XML: " ++ msg]
    /\ conversion_errors (snd (convert_to_bibtex fromstring self (InStr s)))
       <> [].
Proof.
  intros fromstring self s msg H. unfold convert_to_bibtex. rewrite H.
  repeat split; discriminate.
Qed.

Lemma C6_malformed_xml_witness :
  let out := convert_to_bibtex rejecting_parser XML_init
               (InStr "<records><record>") in
  fst out = ""
  /\ conversion_errors (snd out)
     = ["Error parsing XML: no element found: line 1, column 17"]
  /\ conversion_errors (snd out) <> [].
Proof.
  exact (C6_malformed_xml rejecting_parser XML_init "<records><record>"
           "no element found: line 1, column 17" eq_refl).
Defined.

(** C7: a record whose label is a string absent from the table is not
    dropped for that: the loop appends one entry for it, tagged [misc],
    whenever its key can be written in the header, which is the case of
    every record of a well-formed document.  The label is the [name]
    attribute of the [ref-type] element when there is one, else the
    [ref-type] attribute of the record, else ["Generic"]. *)
Theorem C7_unknown_label_misc :
  forall self index record rest bibtex_entries,
    let fields := fst (_extract_fields_from_xml self record) in
    let self' := snd (_extract_fields_from_xml self record) in
    (forall label entry_key,
        entry_type_name_of record = PyStr label ->
        Dict.get entry_type_map label = None ->
        format (entry_key_of record bibtex_entries) = Ok entry_key ->
        let entry :=
          "@misc{" ++ entry_key
            ++ concat_lines (required_lines fields ["title"])
            ++ concat_lines (flexible_lines fields ["title"])
            ++ nl ++ "}" in
        convert_records self index (record :: rest) bibtex_entries
        = convert_records self' (S index) rest
            (bibtex_entries ++ [entry])%list)
    /\ (parsed record = true ->
        exists entry_key,
          format (entry_key_of record bibtex_entries) = Ok entry_key)
    /\ (forall ref_type_elem name,
          find [Desc "ref-type"] record = Some ref_type_elem ->
          Dict.get (attrib ref_type_elem) "name" = Some name ->
          entry_type_name_of record = name)
    /\ (find [Desc "ref-type"] record = None
        \/ (exists ref_type_elem,
              find [Desc "ref-type"] record = Some ref_type_elem
              /\ Dict.get (attrib ref_type_elem) "name" = None) ->
        (forall v, Dict.get (attrib record) "ref-type" = Some v ->
                   entry_type_name_of record = v)
        /\ (Dict.get (attrib record) "ref-type" = None ->
            entry_type_name_of record = PyStr "Generic")).
Proof.
  intros self index record rest bibtex_entries fields self'.
  subst fields self'.
  split; [| split; [| split]].
  - intros label entry_key Hname Hget Hkey entry. subst entry.
    assert (Hty : entry_type_map_get (entry_type_name_of record) "misc"
                  = Ok "misc").
    { rewrite Hname. unfold entry_type_map_get, Dict.get_default.
      now rewrite Hget. }
    exact (convert_records_formatted _ _ _ _ _ _ _ Hty Hkey).
  - intros Hr. exists (header_key record bibtex_entries).
    apply format_header_key. now apply parsed_header.
  - intros e name He Hn. unfold entry_type_name_of. now rewrite He, Hn.
  - intros Hnone.
    assert (Hown : entry_type_name_of record
                   = Dict.get_default (attrib record) "ref-type"
                       (PyStr "Generic")).
    { unfold entry_type_name_of.
      destruct Hnone as [He | (e & He & Hn)]; rewrite He, ?Hn; reflexivity. }
    rewrite Hown. unfold Dict.get_default.
    split; [intros v Hv | intros Hv]; now rewrite Hv.
Qed.

Lemma C7_unknown_label_misc_witness :
  convert_records XML_init 0 [Samples.unknown_type] []
  = (["@misc{ref1" ++ nl ++ tab ++ "title = {T}," ++ nl ++ "}"], XML_init).
Proof.
  exact (proj1
           (C7_unknown_label_misc XML_init 0 Samples.unknown_type [] [])
           "Nonexistent Type" "ref1" eq_refl eq_refl eq_refl).
Defined.

(** C8: the text of the entry written for a record is the header
    [@<type>{<key>], then one line [\n\t<field> = {<value>},] for each field
    of the type's required-field list that the FieldSet holds, in the order
    of that list, then one such line for each field of the FieldSet that is
    not in the list, in insertion order, then [\n}].  Every line comes from a
    field the FieldSet holds: a required field that is absent gets none. *)
Theorem C8_entry_format :
  forall self bibtex_entries record entry self',
    convert_record self bibtex_entries record = Ok (entry, self') ->
    exists entry_type entry_key,
      entry_type_map_get (entry_type_name_of record) "misc" = Ok entry_type
      /\ format (entry_key_of record bibtex_entries) = Ok entry_key
      /\ let fields := fst (_extract_fields_from_xml self record) in
         let required_fields := _get_required_fields entry_type in
         entry
         = "@" ++ entry_type ++ "{" ++ entry_key
             ++ concat_lines (required_lines fields required_fields)
             ++ concat_lines (flexible_lines fields required_fields)
             ++ nl ++ "}"
         /\ forall line,
             In line (required_lines fields required_fields
                        ++ flexible_lines fields required_fields)%list ->
             exists field field_value,
               In (field, field_value) fields
               /\ line = nl ++ tab ++ field ++ " = {" ++ field_value ++ "},".
Proof.
  intros self bibtex_entries record entry self' H.
  destruct (entry_type_map_get (entry_type_name_of record) "misc")
    as [entry_type | e] eqn:Hty.
  - destruct (format (entry_key_of record bibtex_entries))
      as [entry_key | e] eqn:Hkey.
    2: { unfold convert_record in H. rewrite Hty in H. cbn [bind] in H.
         rewrite Hkey in H. discriminate. }
    exists entry_type, entry_key. split; [reflexivity |].
    split; [reflexivity |].
    rewrite (convert_record_formatted _ _ _ _ _ Hty Hkey) in H.
    injection H as <- _. split; [reflexivity |].
    intros line Hin. apply in_app_or in Hin. destruct Hin as [Hin | Hin].
    + apply required_lines_present in Hin.
      destruct Hin as (field & v & _ & Hget & ->).
      exists field, v. split; [now apply get_Some_In | reflexivity].
    + apply flexible_lines_present in Hin.
      destruct Hin as (field & v & Hin & _ & ->).
      now exists field, v.
  - rewrite (convert_record_dropped _ _ _ _ Hty) in H. discriminate.
Qed.

Lemma C8_entry_format_witness :
  exists entry_type entry_key,
    entry_type_map_get (entry_type_name_of Samples.article) "misc"
    = Ok entry_type
    /\ format (entry_key_of Samples.article []) = Ok entry_key
    /\ let fields := fst (_extract_fields_from_xml XML_init Samples.article) in
       let required_fields := _get_required_fields entry_type in
       article_entry
       = "@" ++ entry_type ++ "{" ++ entry_key
           ++ concat_lines (required_lines fields required_fields)
           ++ concat_lines (flexible_lines fields required_fields)
           ++ nl ++ "}"
       /\ forall line,
           In line (required_lines fields required_fields
                      ++ flexible_lines fields required_fields)%list ->
           exists field field_value,
             In (field, field_value) fields
             /\ line = nl ++ tab ++ field ++ " = {" ++ field_value ++ "},".
Proof.
  exact (C8_entry_format XML_init [] Samples.article article_entry XML_init
           eq_refl).
Defined.

(** C9: a [rec-number] element whose text is empty ([None] or the empty
    string) leaves the record with the same key as a record without
    [rec-number], the fall-back [ref<N>]; a non-empty text is the key as it
    stands, neither trimmed nor checked to be a number. *)
Theorem C9_rec_number_text :
  forall self bibtex_entries record entry_type,
    entry_type_map_get (entry_type_name_of record) "misc" = Ok entry_type ->
    let fields := fst (_extract_fields_from_xml self record) in
    let self' := snd (_extract_fields_from_xml self record) in
    let fallback := "ref" ++ str_of_nat (length bibtex_entries + 1) in
    (find [Desc "rec-number"] record = None ->
     convert_record self bibtex_entries record
     = Ok (entry_text entry_type fallback fields, self'))
    /\ (forall key_elem,
          find [Desc "rec-number"] record = Some key_elem ->
          text key_elem = PyNone \/ text key_elem = PyStr "" ->
          convert_record self bibtex_entries record
          = Ok (entry_text entry_type fallback fields, self'))
    /\ (forall key_elem s,
          find [Desc "rec-number"] record = Some key_elem ->
          text key_elem = PyStr s -> s <> "" ->
          convert_record self bibtex_entries record
          = Ok (entry_text entry_type s fields, self')).
Proof.
  intros self bibtex_entries record entry_type Hty fields self' fallback.
  subst fields self' fallback.
  repeat split.
  - intros Hfind. apply (convert_record_formatted _ _ _ _ _ Hty).
    now apply format_key_missing.
  - intros key_elem Hfind Htext.
    apply (convert_record_formatted _ _ _ _ _ Hty).
    apply format_key_empty with (key_elem := key_elem); [assumption |].
    now destruct Htext as [-> | ->].
  - intros key_elem s Hfind Htext Hne.
    apply (convert_record_formatted _ _ _ _ _ Hty).
    now apply format_key_text with (key_elem := key_elem).
Qed.

Lemma C9_rec_number_text_witness :
  convert_record XML_init [] Samples.empty_key
  = Ok (entry_text "misc" "ref1" [], XML_init).
Proof.
  exact (proj1 (proj2
           (C9_rec_number_text XML_init [] Samples.empty_key "misc" eq_refl))
           (Samples.node "rec-number" []) eq_refl (or_introl eq_refl)).
Defined.

(** C10: called with input that is neither a string nor a parsed element,
    [convert_to_bibtex] returns the empty string and leaves exactly one
    error, "Invalid XML data type", in the error list (whatever the list
    held before the call); being a total function it raises nothing. *)
Theorem C10_invalid_input_type :
  forall (fromstring : string -> parse_result) (self : XML) (o : other_input),
    fst (convert_to_bibtex fromstring self (InOther o)) = ""
    /\ conversion_errors (snd (convert_to_bibtex fromstring self (InOther o)))
       = ["Invalid XML data type"].
Proof. intros fromstring self o. split; reflexivity. Qed.

(** ** Further properties of the converter *)

Lemma findall_desc t e :
  findall [Desc t] e = filter (has_tag t) (flat_map iter (children e)).
Proof. cbn. apply app_nil_r. Qed.

Lemma iter_self e : In e (iter e).
Proof. destruct e. now left. Qed.

Lemma iter_child c e : In c (children e) -> In c (iter e).
Proof.
  intros Hc. destruct e as [t a x cs]. cbn [iter children] in *.
  right. apply in_flat_map. exists c. split; [assumption | apply iter_self].
Qed.

Lemma iter_trans e :
  forall d c, In d (iter e) -> In c (iter d) -> In c (iter e).
Proof.
  induction e as [t a x cs IH] using Element_induction.
  intros d c Hd Hc. cbn [iter children] in Hd.
  destruct Hd as [<- | Hd]; [assumption |].
  apply in_flat_map in Hd. destruct Hd as (c0 & Hc0 & Hd).
  cbn [iter children]. right. apply in_flat_map. exists c0.
  split; [assumption |].
  rewrite Forall_forall in IH. exact (IH c0 Hc0 d c Hd Hc).
Qed.

(** A [record] under a [records] container is a [record] below the root. *)
Lemma nested_records_incl xml_root record :
  In record (findall [Desc "records"; Child "record"] xml_root) ->
  In record (findall [Desc "record"] xml_root).
Proof.
  rewrite findall_desc. cbn [findall fold_left select flat_map].
  rewrite app_nil_r. intros H.
  apply in_flat_map in H. destruct H as (d & Hd & Hr).
  apply filter_In in Hd. destruct Hd as [Hd _].
  apply filter_In in Hr. destruct Hr as [Hr Htag].
  apply filter_In. split; [| assumption].
  apply in_flat_map in Hd. destruct Hd as (c0 & Hc0 & Hd).
  apply in_flat_map. exists c0. split; [assumption |].
  apply iter_trans with (d := d); [assumption | now apply iter_child].
Qed.

Lemma records_of_incl xml_root record :
  In record (records_of xml_root) ->
  In record (findall [Desc "record"] xml_root).
Proof.
  unfold records_of.
  destruct (is_some (find [Desc "records"; Child "record"] xml_root));
    [apply nested_records_incl | trivial].
Qed.

(** X1: when no element below the root is tagged [record], the conversion
    returns the empty string and its error list is exactly "No records found
    in XML data".  The root itself is never taken for a record. *)
Theorem no_record_below_root :
  forall fromstring self xml_data xml_root,
    root_of fromstring xml_data = Some xml_root ->
    findall [Desc "record"] xml_root = [] ->
    fst (convert_to_bibtex fromstring self xml_data) = ""
    /\ conversion_errors (snd (convert_to_bibtex fromstring self xml_data))
       = ["No records found in XML data"].
Proof.
  intros fromstring self xml_data xml_root Hroot Hnone.
  rewrite (convert_to_bibtex_root _ _ _ _ Hroot), convert_root_records.
  destruct (records_of xml_root) as [| record rest] eqn:Hrecords.
  - split; reflexivity.
  - pose proof (records_of_incl xml_root record) as Hin.
    rewrite Hrecords, Hnone in Hin. destruct Hin. now left.
Qed.

Lemma no_record_below_root_witness :
  fst (convert_to_bibtex rejecting_parser XML_init
         (InElement Samples.keyless)) = ""
  /\ conversion_errors
       (snd (convert_to_bibtex rejecting_parser XML_init
               (InElement Samples.keyless)))
     = ["No records found in XML data"].
Proof.
  exact (no_record_below_root rejecting_parser XML_init
           (InElement Samples.keyless) Samples.keyless eq_refl eq_refl).
Defined.

(** X2: the returned text is empty exactly when no record yielded an entry,
    that is, when none was found or every one was dropped, the type lookup
    or the writing of the header having raised. *)
Theorem empty_output_iff_no_entry :
  forall fromstring self xml_data xml_root,
    root_of fromstring xml_data = Some xml_root ->
    fst (convert_to_bibtex fromstring self xml_data) = ""
    <-> produced (records_of xml_root) = 0.
Proof.
  intros fromstring self xml_data xml_root Hroot.
  rewrite (convert_to_bibtex_root _ _ _ _ Hroot), convert_root_records.
  destruct (records_of xml_root) as [| record rest] eqn:Hrecords.
  - cbn. tauto.
  - cbn [is_nil].
    destruct (convert_records_appends (record :: rest) (reset_errors self) 0 [])
      as (added & errors & Hent & Hlen & _ & _).
    pose proof (convert_records_start_with_at (reset_errors self) 0
                  (record :: rest)) as Hat.
    destruct (convert_records (reset_errors self) 0 (record :: rest) [])
      as [entries self'].
    cbn [fst snd app] in *. subst entries. rewrite <- Hlen.
    destruct added as [| entry added]; cbn [is_nil andb length].
    + split; [reflexivity |].
      now destruct (negb (is_nil (conversion_errors self'))).
    + cbn [fst]. split; [| discriminate].
      intros Hempty. inversion Hat as [| ? ? Hentry _]; subst.
      now apply concat_starts_with_at with (sep := nl ++ nl)
                                           (entries := added) in Hentry.
Qed.

Lemma empty_output_iff_no_entry_witness :
  fst (convert_to_bibtex rejecting_parser XML_init
         (InElement (Samples.doc [Samples.unhashable_label]))) = "".
Proof.
  apply (empty_output_iff_no_entry rejecting_parser XML_init
           (InElement (Samples.doc [Samples.unhashable_label]))
           (Samples.doc [Samples.unhashable_label]) eq_refl).
  reflexivity.
Defined.

(** X3: when every record found is dropped, the type lookup or the writing
    of the header raising on each, the conversion returns the empty string
    and the error list holds one error for each record. *)
Theorem all_records_dropped :
  forall fromstring self xml_data xml_root,
    root_of fromstring xml_data = Some xml_root ->
    records_of xml_root <> [] ->
    Forall (fun record => record_dropped record = true)
           (records_of xml_root) ->
    fst (convert_to_bibtex fromstring self xml_data) = ""
    /\ length (conversion_errors
                 (snd (convert_to_bibtex fromstring self xml_data)))
       = length (records_of xml_root).
Proof.
  intros fromstring self xml_data xml_root Hroot Hsome Hall.
  rewrite (convert_to_bibtex_root _ _ _ _ Hroot), convert_root_records.
  destruct (records_of xml_root) as [| record rest] eqn:Hrecords;
    [now contradiction Hsome |].
  cbn [is_nil]. rewrite <- Hrecords in *. clear Hrecords Hsome.
  assert (Hcounts : produced (records_of xml_root) = 0
                    /\ failed (reset_errors self) (records_of xml_root)
                       = length (records_of xml_root)).
  { unfold produced, failed.
    induction Hall as [| r rs Hr _ [IH1 IH2]]; [auto |].
    cbn [filter]. rewrite Hr. cbn [negb orb length]. auto. }
  destruct Hcounts as [Hprod Hfailed].
  destruct (convert_records_appends (records_of xml_root)
              (reset_errors self) 0 [])
    as (added & errors & Hent & Hlen & Herr & Hnerr).
  destruct (convert_records (reset_errors self) 0 (records_of xml_root) [])
    as [entries self'].
  cbn [fst snd app reset_errors conversion_errors] in *.
  rewrite Hprod in Hlen. destruct added; [| discriminate]. subst entries.
  rewrite Herr. cbn [is_nil andb].
  destruct (negb (is_nil errors)); cbn [fst snd];
    rewrite ?Herr, Hnerr, Hfailed; split; reflexivity.
Qed.

Lemma all_records_dropped_witness :
  let out :=
    convert_to_bibtex rejecting_parser XML_init
      (InElement
         (Samples.doc [Samples.unhashable_label; Samples.unhashable_label]))
  in
  fst out = "" /\ length (conversion_errors (snd out)) = 2.
Proof.
  refine (all_records_dropped rejecting_parser XML_init
            (InElement
               (Samples.doc
                  [Samples.unhashable_label; Samples.unhashable_label]))
            (Samples.doc [Samples.unhashable_label; Samples.unhashable_label])
            eq_refl _ _).
  - discriminate.
  - repeat constructor.
Defined.

(** X4: on a document shaped as the parser builds it (every text [None] or
    a string, every attribute value a string) in which records are found, the
    conversion returns one entry per record, each starting with [@], joined
    by blank lines, and the error list is empty. *)
Theorem parsed_document_converts :
  forall fromstring self xml_data xml_root,
    root_of fromstring xml_data = Some xml_root ->
    parsed xml_root = true ->
    records_of xml_root <> [] ->
    exists bibtex_entries,
      length bibtex_entries = length (records_of xml_root)
      /\ Forall (fun entry => exists tail, entry = "@" ++ tail) bibtex_entries
      /\ convert_to_bibtex fromstring self xml_data
         = (String.concat (nl ++ nl) bibtex_entries, reset_errors self).
Proof.
  intros fromstring self xml_data xml_root Hroot Hparsed Hsome.
  rewrite (convert_to_bibtex_root _ _ _ _ Hroot), convert_root_records.
  assert (Hall : Forall (fun record => parsed record = true)
                        (records_of xml_root))
    by (apply parsed_findall; assumption).
  destruct (parsed_document_all_entries (reset_errors self) 0
              (records_of xml_root) [] Hall) as [Hlen Herr].
  pose proof (convert_records_start_with_at (reset_errors self) 0
                (records_of xml_root)) as Hat.
  pose proof (convert_records_reset (records_of xml_root)
                (reset_errors self) 0 []) as Hreset.
  destruct (convert_records (reset_errors self) 0 (records_of xml_root) [])
    as [entries self'].
  cbn [fst snd length Nat.add] in *.
  assert (Hself : self' = reset_errors self)
    by (apply XML_eq; assumption).
  exists entries. repeat split; [assumption | assumption |].
  destruct (records_of xml_root) as [| record rest];
    [now contradiction Hsome |].
  destruct entries; [discriminate |].
  cbn [is_nil andb]. now rewrite Hself.
Qed.

Lemma parsed_document_converts_witness :
  exists bibtex_entries,
    length bibtex_entries = 2
    /\ Forall (fun entry => exists tail, entry = "@" ++ tail) bibtex_entries
    /\ convert_to_bibtex rejecting_parser XML_init
         (InElement (Samples.doc [Samples.article; Samples.keyless]))
       = (String.concat (nl ++ nl) bibtex_entries, XML_init).
Proof.
  refine (parsed_document_converts rejecting_parser XML_init
            (InElement (Samples.doc [Samples.article; Samples.keyless]))
            (Samples.doc [Samples.article; Samples.keyless])
            eq_refl eq_refl _).
  discriminate.
Defined.

Lemma convert_root_reset self xml_root :
  reset_errors (snd (convert_root self xml_root)) = reset_errors self.
Proof.
  rewrite convert_root_records.
  destruct (is_nil (records_of xml_root)); [reflexivity |].
  pose proof (convert_records_reset (records_of xml_root) self 0 []) as H.
  destruct (convert_records self 0 (records_of xml_root) [])
    as [entries self'].
  cbn [snd] in H.
  now destruct (is_nil entries && negb (is_nil (conversion_errors self'))).
Qed.

Lemma convert_to_bibtex_reset fromstring self xml_data :
  reset_errors (snd (convert_to_bibtex fromstring self xml_data))
  = reset_errors self.
Proof.
  unfold convert_to_bibtex.
  destruct xml_data as [s | e | o]; [destruct (fromstring s) | |];
    rewrite ?convert_root_reset; reflexivity.
Qed.

(** X5: [convert_to_bibtex] run again on the object a first run left behind
    returns the same text and the same error list: the errors of one call
    never reach the next, and the two flags are left as they were. *)
Theorem convert_again_same_result :
  forall fromstring self xml_data,
    convert_to_bibtex fromstring
      (snd (convert_to_bibtex fromstring self xml_data)) xml_data
    = convert_to_bibtex fromstring self xml_data
    /\ suppress_warnings (snd (convert_to_bibtex fromstring self xml_data))
       = suppress_warnings self
    /\ extract_styled_text (snd (convert_to_bibtex fromstring self xml_data))
       = extract_styled_text self.
Proof.
  intros fromstring self xml_data.
  pose proof (convert_to_bibtex_reset fromstring self xml_data) as Hreset.
  split.
  - unfold convert_to_bibtex at 1. rewrite Hreset. reflexivity.
  - destruct (snd (convert_to_bibtex fromstring self xml_data)), self.
    cbn in *. now injection Hreset.
Qed.

(** *** The keys of a FieldSet *)

Lemma subseq_nil_l {A : Type} (l : list A) : subseq [] l.
Proof. induction l; constructor; assumption. Qed.

Lemma subseq_In {A : Type} (l1 l2 : list A) x :
  subseq l1 l2 -> In x l1 -> In x l2.
Proof.
  induction 1 as [| y l1 l2 _ IH | y l1 l2 _ IH]; cbn; intuition.
Qed.

Lemma subseq_app_r {A : Type} (l1 l2 more : list A) :
  subseq l1 l2 -> subseq l1 (l2 ++ more).
Proof.
  induction 1 as [| y l1 l2 _ IH | y l1 l2 _ IH]; cbn.
  - apply subseq_nil_l.
  - now apply subseq_skip.
  - now apply subseq_keep.
Qed.

Lemma subseq_snoc {A : Type} (l1 l2 : list A) x :
  subseq l1 l2 -> subseq (l1 ++ [x]) (l2 ++ [x]).
Proof.
  induction 1 as [| y l1 l2 _ IH | y l1 l2 _ IH]; cbn.
  - apply subseq_keep, subseq_nil.
  - now apply subseq_skip.
  - now apply subseq_keep.
Qed.

Lemma subseq_NoDup {A : Type} (l1 l2 : list A) :
  subseq l1 l2 -> NoDup l2 -> NoDup l1.
Proof.
  induction 1 as [| y l1 l2 Hs IH | y l1 l2 Hs IH]; intros Hnd.
  - constructor.
  - inversion Hnd; subst. now apply IH.
  - inversion Hnd as [| ? ? Hnotin Hrest]; subst. constructor.
    + intros Hin. apply Hnotin. now apply subseq_In with (l1 := l1).
    + now apply IH.
Qed.

Lemma in_list_false k l : in_list k l = false -> ~ In k l.
Proof.
  unfold in_list. intros Hfalse Hin.
  assert (Htrue : existsb (String.eqb k) l = true).
  { apply existsb_exists. exists k. split; [assumption |].
    apply String.eqb_refl. }
  congruence.
Qed.

Lemma set_fresh {V : Type} (d : Dict.dict V) k v :
  ~ In k (map fst d) -> Dict.set d k v = (d ++ [(k, v)])%list.
Proof.
  induction d as [| [k' v'] d IH]; cbn; intros Hfresh; [reflexivity |].
  destruct (String.eqb_spec k' k) as [-> | _]; [tauto |].
  rewrite IH; tauto.
Qed.

(** A step that at most writes [k] extends the order by [k]. *)
Lemma keys_advance (fields fields' : fieldset) k done :
  subseq (map fst fields) done ->
  in_list k done = false ->
  fields' = fields \/ (exists v, fields' = Dict.set fields k v) ->
  subseq (map fst fields') (done ++ [k]).
Proof.
  intros Hsub Hfresh [-> | [v ->]].
  - now apply subseq_app_r.
  - rewrite set_fresh.
    + rewrite map_app. cbn [map fst]. now apply subseq_snoc.
    + intros Hin. apply (in_list_false _ _ Hfresh).
      now apply subseq_In with (l1 := map fst fields).
Qed.

Lemma extract_single_writes self elem key fields fields' :
  extract_single self elem key fields = Ok fields' ->
  fields' = fields \/ (exists v, fields' = Dict.set fields key v).
Proof.
  unfold extract_single. intros H.
  destruct elem as [el |]; [| injection H; auto].
  destruct (_extract_text_from_styled_element self (Some el)) as [t |];
    cbn [bind] in H; [| discriminate].
  destruct (truthy t); [| injection H; auto].
  destruct (py_strip t) as [v |]; cbn [bind] in H; [| discriminate].
  injection H as <-. eauto.
Qed.

Lemma extract_authors_writes self record fields fields' :
  extract_authors self record fields = Ok fields' ->
  fields' = fields \/ (exists v, fields' = Dict.set fields "author" v).
Proof.
  unfold extract_authors. intros H.
  destruct (find _ record) as [authors_elem |]; [| injection H; auto].
  destruct (collect_texts self _ []) as [[| name names] |];
    cbn [bind] in H; try discriminate; injection H as <-; eauto.
Qed.

Lemma extract_keywords_writes self record fields fields' :
  extract_keywords self record fields = Ok fields' ->
  fields' = fields \/ (exists v, fields' = Dict.set fields "keywords" v).
Proof.
  unfold extract_keywords. intros H.
  destruct (findall _ record) as [| kw kws]; [injection H; auto |].
  destruct (collect_texts self _ []) as [[| name names] |];
    cbn [bind] in H; try discriminate; injection H as <-; eauto.
Qed.

Lemma extract_secondary_writes self record fields fields' :
  extract_secondary self record fields = Ok fields' ->
  fields' = fields
  \/ (exists v, fields' = Dict.set fields "journal" v)
  \/ (exists v, fields' = Dict.set fields "booktitle" v).
Proof.
  unfold extract_secondary. intros H.
  destruct (find [Desc "titles"; Child "secondary-title"] record) as [sec |];
    [| injection H; auto].
  destruct (_extract_text_from_styled_element self (Some sec)) as [t |];
    cbn [bind] in H; [| discriminate].
  destruct (truthy t); [| injection H; auto].
  destruct (find [Desc "ref-type"] record) as [ref_type_elem |];
    [| injection H; auto].
  destruct (Dict.get (attrib ref_type_elem) "name") as [name |];
    [| injection H; auto].
  destruct (eq_str name "Journal Article");
    (destruct (py_strip t) as [v |]; cbn [bind] in H; [| discriminate]);
    injection H as <-; eauto.
Qed.

Lemma venue_advance (fields fields' : fieldset) done :
  subseq (map fst fields) done ->
  in_list "journal" done = false ->
  in_list "booktitle" (done ++ ["journal"]) = false ->
  fields' = fields
  \/ (exists v, fields' = Dict.set fields "journal" v)
  \/ (exists v, fields' = Dict.set fields "booktitle" v) ->
  subseq (map fst fields') ((done ++ ["journal"]) ++ ["booktitle"]).
Proof.
  intros Hsub Hj Hb [-> | [Hset | Hset]].
  - now do 2 apply subseq_app_r.
  - apply subseq_app_r. apply keys_advance with (fields := fields); auto.
  - apply keys_advance with (fields := fields); auto.
    now apply subseq_app_r.
Qed.

Lemma fieldset_keys_in_order self record fields :
  extract_fields_body self record = Ok fields ->
  subseq (map fst fields) extraction_order.
Proof.
  intros Hbody. split_steps Hbody.
  assert (Hstart : subseq (map fst (@nil (string * string))) [])
    by constructor.
  repeat
    match goal with
    | Hs : subseq (map fst ?f) ?done,
      H : extract_single _ _ ?k ?f = Ok ?f' |- _ =>
        pose proof (keys_advance f f' k done Hs eq_refl
                      (extract_single_writes _ _ _ _ _ H));
        clear Hs H
    | Hs : subseq (map fst ?f) ?done,
      H : extract_authors _ _ ?f = Ok ?f' |- _ =>
        pose proof (keys_advance f f' "author" done Hs eq_refl
                      (extract_authors_writes _ _ _ _ H));
        clear Hs H
    | Hs : subseq (map fst ?f) ?done,
      H : extract_keywords _ _ ?f = Ok ?f' |- _ =>
        pose proof (keys_advance f f' "keywords" done Hs eq_refl
                      (extract_keywords_writes _ _ _ _ H));
        clear Hs H
    | Hs : subseq (map fst ?f) ?done,
      H : extract_secondary _ _ ?f = Ok ?f' |- _ =>
        pose proof (venue_advance f f' done Hs eq_refl eq_refl
                      (extract_secondary_writes _ _ _ _ H));
        clear Hs H
    end.
  assumption.
Qed.

Lemma extraction_order_NoDup : NoDup extraction_order.
Proof.
  unfold extraction_order.
  repeat (constructor; [cbn; intuition discriminate |]). constructor.
Qed.

Lemma fieldset_keys_subseq self record :
  subseq (map fst (fst (_extract_fields_from_xml self record)))
         extraction_order.
Proof.
  unfold _extract_fields_from_xml.
  destruct (extract_fields_body self record) as [fields | e] eqn:Hbody.
  - now apply fieldset_keys_in_order with (1 := Hbody).
  - apply subseq_nil_l.
Qed.

Lemma fieldset_keys_NoDup self record :
  NoDup (map fst (fst (_extract_fields_from_xml self record))).
Proof.
  exact (subseq_NoDup _ _ (fieldset_keys_subseq self record)
           extraction_order_NoDup).
Qed.

(** X6: the keys of the FieldSet of a record always come in the order
    title, author, year, journal or booktitle, volume, number, pages,
    publisher, url, doi, abstract, keywords, isbn, edition, address, note,
    month, series, chapter, with some of them left out; no key occurs twice
    and no other key ever occurs. *)
Theorem fieldset_keys_ordered :
  forall self record,
    let keys := map fst (fst (_extract_fields_from_xml self record)) in
    subseq keys extraction_order
    /\ NoDup keys
    /\ (forall key, In key keys -> In key extraction_order).
Proof.
  intros self record keys. subst keys. repeat split.
  - apply fieldset_keys_subseq.
  - apply fieldset_keys_NoDup.
  - intros key. apply subseq_In, fieldset_keys_subseq.
Qed.

Lemma extract_secondary_one self record fields fields' :
  extract_secondary self record fields = Ok fields' ->
  Dict.get fields "journal" = None ->
  Dict.get fields "booktitle" = None ->
  Dict.get fields' "journal" = None \/ Dict.get fields' "booktitle" = None.
Proof.
  intros H Hj Hb.
  destruct (extract_secondary_writes _ _ _ _ H) as [-> | [[v ->] | [v ->]]].
  - now left.
  - right. now rewrite get_set_other.
  - left. now rewrite get_set_other.
Qed.

(** X7: the FieldSet of a record never holds both [journal] and
    [booktitle]. *)
Theorem journal_or_booktitle_not_both :
  forall self record,
    let fields := fst (_extract_fields_from_xml self record) in
    Dict.get fields "journal" = None \/ Dict.get fields "booktitle" = None.
Proof.
  intros self record fields. subst fields. unfold _extract_fields_from_xml.
  destruct (extract_fields_body self record) as [fields | e] eqn:Hbody;
    cbn [fst]; [| now left].
  split_steps Hbody. skip_steps.
  match goal with
  | H : extract_secondary _ _ _ = Ok ?f |- context [Dict.get ?f _] =>
      apply (extract_secondary_one _ _ _ _ H)
  end; skip_steps; reflexivity.
Qed.

(** *** The formatter neither loses nor repeats a field *)

Lemma no_repeat_NoDup l : no_repeat l = true -> NoDup l.
Proof.
  induction l as [| x rest IH]; cbn; [constructor |].
  rewrite andb_true_iff, negb_true_iff. intros [Hx Hrest].
  constructor; [now apply in_list_false | now apply IH].
Qed.

Lemma in_list_true k l : In k l -> in_list k l = true.
Proof.
  intros Hin. apply existsb_exists. exists k.
  split; [assumption | apply String.eqb_refl].
Qed.

Lemma filter_split {A : Type} (p : A -> bool) (l : list A) :
  Permutation (filter p l ++ filter (fun x => negb (p x)) l) l.
Proof.
  induction l as [| a l IH]; cbn; [constructor |].
  destruct (p a); cbn.
  - now constructor.
  - apply Permutation_sym, Permutation_cons_app. now apply Permutation_sym.
Qed.

Lemma filter_or_disjoint {A : Type} (p q : A -> bool) (l : list A) :
  (forall x, In x l -> p x = true -> q x = false) ->
  Permutation (filter (fun x => p x || q x) l) (filter p l ++ filter q l).
Proof.
  induction l as [| a l IH]; intros Hdisj; cbn; [constructor |].
  assert (IH' : Permutation (filter (fun x => p x || q x) l)
                            (filter p l ++ filter q l))
    by (apply IH; intros x Hx; apply Hdisj; now right).
  destruct (p a) eqn:Hp; cbn.
  - rewrite (Hdisj a (or_introl eq_refl) Hp). now constructor.
  - destruct (q a); [| assumption].
    now apply Permutation_cons_app.
Qed.

Lemma filter_key (fields : fieldset) field :
  NoDup (map fst fields) ->
  filter (fun item => fst item =? field) fields
  = match Dict.get fields field with
    | Some field_value => [(field, field_value)]
    | None => []
    end.
Proof.
  induction fields as [| [k v] rest IH]; cbn [map fst filter Dict.get];
    intros Hnd; [reflexivity |].
  inversion Hnd as [| ? ? Hfresh Hrest]; subst.
  destruct (String.eqb_spec k field) as [-> | _]; [| now apply IH].
  f_equal. rewrite (IH Hrest).
  destruct (Dict.get rest field) as [v' |] eqn:Hget; [| reflexivity].
  apply get_Some_In in Hget. contradiction Hfresh.
  now apply (in_map fst) in Hget.
Qed.

Lemma required_lines_filter (fields : fieldset) required_fields :
  NoDup (map fst fields) ->
  NoDup required_fields ->
  Permutation
    (required_lines fields required_fields)
    (map item_line
         (filter (fun item => in_list (fst item) required_fields) fields)).
Proof.
  intros Hkeys Hreq.
  induction Hreq as [| field rest Hfresh _ IH].
  - unfold required_lines. cbn [flat_map].
    replace (filter (fun item => in_list (fst item) []) fields)
      with (@nil (string * string)); [constructor |].
    clear Hkeys. induction fields as [| item fields IH]; auto.
  - assert (Hfilter :
             filter (fun item => in_list (fst item) (field :: rest)) fields
             = filter (fun item : string * string =>
                         (fst item =? field) || in_list (fst item) rest)
                      fields)
      by (apply filter_ext; reflexivity).
    rewrite Hfilter.
    apply Permutation_trans
      with (map item_line
              (filter (fun item : string * string => fst item =? field) fields
                 ++ filter (fun item : string * string =>
                              in_list (fst item) rest) fields)).
    + rewrite map_app, (filter_key fields field Hkeys).
      unfold required_lines in *. cbn [flat_map].
      apply Permutation_app; [| exact IH].
      destruct (Dict.get fields field); reflexivity.
    + apply Permutation_map, Permutation_sym, filter_or_disjoint.
      intros item _ Heq. apply String.eqb_eq in Heq. subst field.
      destruct (in_list (fst item) rest) eqn:Hin; [| reflexivity].
      apply existsb_exists in Hin. destruct Hin as (x & Hx & Heq).
      apply String.eqb_eq in Heq. now subst x.
Qed.

Lemma flexible_lines_filter (fields : fieldset) required_fields :
  flexible_lines fields required_fields
  = map item_line
        (filter (fun item => negb (in_list (fst item) required_fields))
                fields).
Proof.
  unfold flexible_lines.
  rewrite (filter_ext _ (fun item : string * string =>
                           negb (in_list (fst item) required_fields)))
    by (intros [k v]; reflexivity).
  apply map_ext. intros [k v]. reflexivity.
Qed.

Lemma format_lines_permutation (fields : fieldset) required_fields :
  NoDup (map fst fields) ->
  NoDup required_fields ->
  exists lines,
    _format_fields fields required_fields = concat_lines lines
    /\ Permutation lines (map item_line fields).
Proof.
  intros Hkeys Hreq.
  exists (required_lines fields required_fields
            ++ flexible_lines fields required_fields)%list.
  split.
  - now rewrite _format_fields_lines, concat_lines_app.
  - rewrite flexible_lines_filter.
    eapply Permutation_trans;
      [apply Permutation_app_tail, required_lines_filter; assumption |].
    rewrite <- map_app. apply Permutation_map.
    apply (filter_split (fun item => in_list (fst item) required_fields)).
Qed.

(** X8: when the required-field list has no repeated name, [_format_fields]
    writes exactly one line for each item of [fields] and nothing else: the
    lines it concatenates are a rearrangement of the items' lines.  (The keys
    of [fields], a dictionary, are distinct.) *)
Theorem format_fields_one_line_per_field :
  forall (fields : fieldset) (required_fields : list string),
    NoDup (map fst fields) ->
    NoDup required_fields ->
    exists lines,
      _format_fields fields required_fields = concat_lines lines
      /\ Permutation lines (map item_line fields).
Proof.
  intros fields required_fields Hkeys Hreq.
  destruct (format_lines_permutation fields required_fields Hkeys Hreq)
    as (lines & Hformat & Hperm).
  now exists lines.
Qed.

Lemma format_fields_one_line_per_field_witness :
  exists lines,
    _format_fields [("title", "T"); ("volume", "3"); ("year", "1984")]
                   ["author"; "title"; "journal"; "year"]
    = concat_lines lines
    /\ Permutation lines
         (map item_line [("title", "T"); ("volume", "3"); ("year", "1984")]).
Proof.
  apply format_fields_one_line_per_field.
  - apply (no_repeat_NoDup ["title"; "volume"; "year"]). reflexivity.
  - apply no_repeat_NoDup. reflexivity.
Defined.

(** *** The two tables *)

Lemma get_default_In {V : Type} (d : Dict.dict V) k default :
  Dict.get_default d k default = default
  \/ In (Dict.get_default d k default) (map snd d).
Proof.
  unfold Dict.get_default.
  destruct (Dict.get d k) as [v |] eqn:Hget; [right | now left].
  apply get_Some_In in Hget. now apply (in_map snd) in Hget.
Qed.

Lemma entry_type_in_table name entry_type :
  entry_type_map_get name "misc" = Ok entry_type ->
  In entry_type (map snd entry_type_map).
Proof.
  assert (Hmisc : In "misc" (map snd entry_type_map)) by (cbn; tauto).
  destruct name as [| s | z |]; cbn [entry_type_map_get];
    intros [= <-]; try exact Hmisc.
  destruct (get_default_In entry_type_map s "misc") as [-> | Hin];
    assumption.
Qed.

Lemma reachable_type_required name entry_type :
  entry_type_map_get name "misc" = Ok entry_type ->
  Dict.mem required_fields_table entry_type = true
  /\ In "title" (_get_required_fields entry_type)
  /\ NoDup (_get_required_fields entry_type).
Proof.
  intros Hty. apply entry_type_in_table in Hty.
  assert (Hall : forallb
                   (fun t => Dict.mem required_fields_table t
                             && in_list "title" (_get_required_fields t)
                             && no_repeat (_get_required_fields t))
                   (map snd entry_type_map) = true) by reflexivity.
  rewrite forallb_forall in Hall. specialize (Hall entry_type Hty).
  rewrite !andb_true_iff in Hall. destruct Hall as [[Hmem Htitle] Hnd].
  repeat split.
  - exact Hmem.
  - apply existsb_exists in Htitle. destruct Htitle as (x & Hx & Heq).
    apply String.eqb_eq in Heq. now subst x.
  - now apply no_repeat_NoDup.
Qed.

(** X9: every entry type the type table can yield, the default [misc]
    included, has a list in the required-field table; that list names
    [title] and repeats no name. *)
Theorem required_fields_of_every_type :
  forall name entry_type,
    entry_type_map_get name "misc" = Ok entry_type ->
    Dict.mem required_fields_table entry_type = true
    /\ In "title" (_get_required_fields entry_type)
    /\ NoDup (_get_required_fields entry_type).
Proof.
  intros name entry_type Hty.
  destruct (reachable_type_required name entry_type Hty) as (H1 & H2 & H3).
  repeat split; assumption.
Qed.

Lemma required_fields_of_every_type_witness :
  Dict.mem required_fields_table "misc" = true
  /\ In "title" (_get_required_fields "misc")
  /\ NoDup (_get_required_fields "misc").
Proof.
  exact (required_fields_of_every_type (PyStr "Nonexistent Type") "misc"
           eq_refl).
Defined.

(** X10: the entry written for a record holds, between its header and its
    closing brace, exactly one line for each field of the record's FieldSet:
    no field is left out and none is written twice. *)
Theorem entry_has_one_line_per_field :
  forall self bibtex_entries record entry self',
    convert_record self bibtex_entries record = Ok (entry, self') ->
    exists entry_type entry_key lines,
      format (entry_key_of record bibtex_entries) = Ok entry_key
      /\ entry = "@" ++ entry_type ++ "{" ++ entry_key
                     ++ concat_lines lines ++ nl ++ "}"
      /\ Permutation lines
           (map item_line (fst (_extract_fields_from_xml self record))).
Proof.
  intros self bibtex_entries record entry self' H.
  destruct (entry_type_map_get (entry_type_name_of record) "misc")
    as [entry_type | e] eqn:Hty.
  - unfold convert_record in H. rewrite Hty in H. cbn [bind] in H.
    destruct (format (entry_key_of record bibtex_entries))
      as [entry_key | e] eqn:Hkey; [| discriminate].
    cbn [bind] in H.
    pose proof (fieldset_keys_NoDup self record) as Hkeys.
    destruct (reachable_type_required _ _ Hty) as (_ & _ & Hreq).
    destruct (_extract_fields_from_xml self record) as [fields self''].
    cbn [fst] in *. injection H as <- _.
    destruct (format_lines_permutation fields
                (_get_required_fields entry_type) Hkeys Hreq)
      as (lines & -> & Hperm).
    exists entry_type, entry_key, lines.
    split; [reflexivity |]. split; [| exact Hperm].
    now rewrite !append_assoc.
  - rewrite (convert_record_dropped _ _ _ _ Hty) in H. discriminate.
Qed.

Lemma entry_has_one_line_per_field_witness :
  exists entry_type entry_key lines,
    format (entry_key_of Samples.article []) = Ok entry_key
    /\ article_entry
       = "@" ++ entry_type ++ "{" ++ entry_key
             ++ concat_lines lines ++ nl ++ "}"
    /\ Permutation lines
         (map item_line
              (fst (_extract_fields_from_xml XML_init Samples.article))).
Proof.
  exact (entry_has_one_line_per_field XML_init [] Samples.article
           article_entry XML_init eq_refl).
Defined.

(** *** Authors and keywords *)

Lemma collect_texts_names self elems texts :
  Forall2 (fun e t =>
             _extract_text_from_styled_element self (Some e) = Ok (PyStr t))
          elems texts ->
  forall names,
    collect_texts self elems names = Ok (names ++ kept_names texts)%list.
Proof.
  unfold kept_names.
  induction 1 as [| e t elems texts He _ IH]; intros names;
    cbn [collect_texts filter map].
  - now rewrite app_nil_r.
  - rewrite He. cbn [bind truthy].
    destruct (t =? ""); cbn [negb py_strip bind map].
    + apply IH.
    + rewrite IH, <- app_assoc. reflexivity.
Qed.

Lemma extract_authors_joined self record fields authors_elem texts :
  find [Desc "contributors"; Child "authors"] record = Some authors_elem ->
  Forall2 (fun e t =>
             _extract_text_from_styled_element self (Some e) = Ok (PyStr t))
          (findall [Desc "author"] authors_elem) texts ->
  extract_authors self record fields
  = Ok (match joined " and " (kept_names texts) with
        | Some v => Dict.set fields "author" v
        | None => fields
        end).
Proof.
  intros Hfind Htexts. unfold extract_authors, joined.
  rewrite Hfind, (collect_texts_names _ _ _ Htexts). cbn [bind app].
  now destruct (kept_names texts).
Qed.

Lemma extract_keywords_joined self record fields texts :
  Forall2 (fun e t =>
             _extract_text_from_styled_element self (Some e) = Ok (PyStr t))
          (findall [Desc "keywords"; Child "keyword"] record) texts ->
  extract_keywords self record fields
  = Ok (match joined ", " (kept_names texts) with
        | Some v => Dict.set fields "keywords" v
        | None => fields
        end).
Proof.
  intros Htexts. unfold extract_keywords, joined.
  destruct (findall [Desc "keywords"; Child "keyword"] record)
    as [| kw kws] eqn:Hall.
  - inversion Htexts; subst. reflexivity.
  - rewrite (collect_texts_names _ _ _ Htexts). cbn [bind app].
    now destruct (kept_names texts).
Qed.

(** X11: when the extraction pass completes, the [author] field is the
    authors' resolved texts, the empty ones passed over and the others
    trimmed, joined by " and "; there is no [author] field when no text is
    left.  A text of blanks only is not passed over: it stays as an empty
    name. *)
Theorem author_field_joins_names :
  forall self record authors_elem texts,
    extraction_fails self record = false ->
    find [Desc "contributors"; Child "authors"] record = Some authors_elem ->
    Forall2 (fun e t =>
               _extract_text_from_styled_element self (Some e) = Ok (PyStr t))
            (findall [Desc "author"] authors_elem) texts ->
    Dict.get (fst (_extract_fields_from_xml self record)) "author"
    = joined " and " (kept_names texts).
Proof.
  intros self record authors_elem texts Hok Hfind Htexts.
  unfold _extract_fields_from_xml, extraction_fails in *.
  destruct (extract_fields_body self record) as [fields | e] eqn:Hbody;
    [| discriminate].
  cbn [fst]. split_steps Hbody. skip_steps.
  match goal with
  | H : extract_authors _ _ ?f0 = Ok ?f |- context [Dict.get ?f _] =>
      rewrite (extract_authors_joined _ _ f0 _ _ Hfind Htexts) in H;
      injection H as <-
  end.
  destruct (joined " and " (kept_names texts)) as [v |].
  - apply get_set_same.
  - skip_steps. reflexivity.
Qed.

Lemma author_field_joins_names_witness :
  Dict.get (fst (_extract_fields_from_xml XML_init Samples.article)) "author"
  = Some "Knuth, D. and Lamport, L.".
Proof.
  refine (author_field_joins_names XML_init Samples.article
            (Samples.node "authors"
               [ Samples.leaf "author" "Knuth, D.";
                 Samples.leaf "author" " Lamport, L. " ])
            ["Knuth, D."; " Lamport, L. "] eq_refl eq_refl _).
  repeat constructor.
Defined.

(** X12: when the extraction pass completes, the [keywords] field is the
    keywords' resolved texts, the empty ones passed over and the others
    trimmed, joined by ", "; there is no [keywords] field when no text is
    left. *)
Theorem keywords_field_joins_names :
  forall self record texts,
    extraction_fails self record = false ->
    Forall2 (fun e t =>
               _extract_text_from_styled_element self (Some e) = Ok (PyStr t))
            (findall [Desc "keywords"; Child "keyword"] record) texts ->
    Dict.get (fst (_extract_fields_from_xml self record)) "keywords"
    = joined ", " (kept_names texts).
Proof.
  intros self record texts Hok Htexts.
  unfold _extract_fields_from_xml, extraction_fails in *.
  destruct (extract_fields_body self record) as [fields | e] eqn:Hbody;
    [| discriminate].
  cbn [fst]. split_steps Hbody. skip_steps.
  match goal with
  | H : extract_keywords _ _ ?f0 = Ok ?f |- context [Dict.get ?f _] =>
      rewrite (extract_keywords_joined _ _ f0 _ Htexts) in H;
      injection H as <-
  end.
  destruct (joined ", " (kept_names texts)) as [v |].
  - apply get_set_same.
  - skip_steps. reflexivity.
Qed.

Lemma keywords_field_joins_names_witness :
  Dict.get (fst (_extract_fields_from_xml XML_init Samples.tagged)) "keywords"
  = Some "logic, , proof".
Proof.
  refine (keywords_field_joins_names XML_init Samples.tagged
            ["logic"; " "; ""; "proof "] eq_refl _).
  repeat constructor.
Defined.

(** *** Keys and error numbers *)

Lemma str_of_nat_inj a b : str_of_nat a = str_of_nat b -> a = b.
Proof.
  unfold str_of_nat. intros H.
  apply (f_equal NilEmpty.uint_of_string) in H.
  rewrite !NilEmpty.usu in H. injection H as H.
  now apply Unsigned.to_uint_inj.
Qed.

Lemma entry_key_keyless record produced_before :
  keyless record = true ->
  format (entry_key_of record produced_before)
  = Ok ("ref" ++ str_of_nat (length produced_before + 1)).
Proof.
  unfold keyless, entry_key_of.
  destruct (find [Desc "rec-number"] record) as [key_elem |];
    [| reflexivity].
  now destruct (truthy (text key_elem)).
Qed.

Lemma keyless_kept record entry_type :
  entry_type_map_get (entry_type_name_of record) "misc" = Ok entry_type ->
  keyless record = true ->
  header_raises record = false /\ record_dropped record = false.
Proof.
  intros Hty Hk.
  assert (Hhd : header_raises record = false)
    by exact (proj1 (format_Ok_header _ [] _ (entry_key_keyless _ _ Hk))).
  split; [assumption |].
  unfold record_dropped, lookup_raises. now rewrite Hty, Hhd.
Qed.

(** X13: two records without usable [rec-number] that both yield an entry
    get different keys, [ref<N>] each with its own [N], wherever they stand
    in the document; [N] counts the entries written before, not the records
    dropped. *)
Theorem fallback_keys_differ :
  forall self index pre record1 mid record2 rest entry_type1 entry_type2,
    entry_type_map_get (entry_type_name_of record1) "misc" = Ok entry_type1 ->
    entry_type_map_get (entry_type_name_of record2) "misc" = Ok entry_type2 ->
    keyless record1 = true ->
    keyless record2 = true ->
    let entries :=
      fst (convert_records self index
             (pre ++ record1 :: mid ++ record2 :: rest) []) in
    let position1 := produced pre in
    let position2 := produced (pre ++ record1 :: mid) in
    let key1 := "ref" ++ str_of_nat (position1 + 1) in
    let key2 := "ref" ++ str_of_nat (position2 + 1) in
    nth_error entries position1
    = Some (entry_text entry_type1 key1
              (fst (_extract_fields_from_xml self record1)))
    /\ nth_error entries position2
       = Some (entry_text entry_type2 key2
                 (fst (_extract_fields_from_xml self record2)))
    /\ key1 <> key2.
Proof.
  intros self index pre record1 mid record2 rest entry_type1 entry_type2
    Hty1 Hty2 Hk1 Hk2 entries position1 position2 key1 key2.
  subst entries position1 position2 key1 key2.
  split; [| split].
  - destruct (keyless_kept _ _ Hty1 Hk1) as [Hhd _].
    destruct (nth_entry self index pre record1 (mid ++ record2 :: rest)
                entry_type1 Hty1 Hhd) as (before & Hlen & Hnth).
    rewrite Hnth.
    rewrite (proj2 (format_Ok_header _ _ _ (entry_key_keyless _ before Hk1))).
    now rewrite Hlen.
  - destruct (keyless_kept _ _ Hty2 Hk2) as [Hhd _].
    destruct (nth_entry self index (pre ++ record1 :: mid) record2 rest
                entry_type2 Hty2 Hhd) as (before & Hlen & Hnth).
    rewrite <- app_assoc in Hnth. cbn [app] in Hnth.
    rewrite Hnth.
    rewrite (proj2 (format_Ok_header _ _ _ (entry_key_keyless _ before Hk2))).
    now rewrite Hlen.
  - destruct (keyless_kept _ _ Hty1 Hk1) as [_ Hkept].
    intros Heq. injection Heq as Heq. apply str_of_nat_inj in Heq.
    rewrite produced_app in Heq. unfold produced at 3 in Heq.
    cbn [filter] in Heq. rewrite Hkept in Heq.
    cbn [negb length] in Heq. lia.
Qed.

Lemma fallback_keys_differ_witness :
  let entries :=
    fst (convert_records XML_init 0
           [Samples.keyless; Samples.article; Samples.empty_key] []) in
  nth_error entries 0
  = Some (entry_text "misc" "ref1" [("title", "Untitled")])
  /\ nth_error entries 2 = Some (entry_text "misc" "ref3" [])
  /\ "ref1" <> "ref3".
Proof.
  exact (fallback_keys_differ XML_init 0 [] Samples.keyless
           [Samples.article] Samples.empty_key [] "misc" "misc"
           eq_refl eq_refl eq_refl eq_refl).
Defined.

(** X14: the error left by a record on which the type lookup raises names
    the record's position among the records found, counted from one;
    dropped records before it are counted too. *)
Theorem dropped_record_error_names_position :
  forall fromstring self xml_data xml_root pre record rest e,
    root_of fromstring xml_data = Some xml_root ->
    records_of xml_root = (pre ++ record :: rest)%list ->
    entry_type_map_get (entry_type_name_of record) "misc" = Raise e ->
    In ("Error processing record " ++ str_of_nat (length pre + 1) ++ ": "
          ++ str_exn e)
       (conversion_errors (snd (convert_to_bibtex fromstring self xml_data))).
Proof.
  intros fromstring self xml_data xml_root pre record rest e Hroot Hrecords
    Hty.
  rewrite (convert_to_bibtex_root _ _ _ _ Hroot), convert_root_records.
  rewrite Hrecords.
  assert (Hin : In ("Error processing record " ++ str_of_nat (length pre + 1)
                      ++ ": " ++ str_exn e)
                   (conversion_errors
                      (snd (convert_records (reset_errors self) 0
                              (pre ++ record :: rest) [])))).
  { rewrite convert_records_app.
    rewrite (convert_records_dropped _ _ _ _ _ _ Hty).
    match goal with
    | |- context [convert_records ?s ?i rest ?es] =>
        destruct (convert_records_appends rest s i es)
          as (added & errors & _ & _ & -> & _)
    end.
    cbn [append_error conversion_errors Nat.add].
    apply in_or_app. left. apply in_or_app. right. now left. }
  destruct (pre ++ record :: rest)%list as [| r rs] eqn:Hlist;
    [now destruct pre |].
  cbn [is_nil].
  destruct (convert_records (reset_errors self) 0 (r :: rs) [])
    as [entries self'].
  cbn [snd] in Hin.
  now destruct (is_nil entries && negb (is_nil (conversion_errors self'))).
Qed.

Lemma dropped_record_error_names_position_witness :
  In "Error processing record 2: unhashable type: 'list'"
     (conversion_errors
        (snd (convert_to_bibtex rejecting_parser XML_init
                (InElement
                   (Samples.doc
                      [Samples.unhashable_label; Samples.unhashable_label;
                       Samples.keyless]))))).
Proof.
  exact (dropped_record_error_names_position rejecting_parser XML_init
           (InElement
              (Samples.doc
                 [Samples.unhashable_label; Samples.unhashable_label;
                  Samples.keyless]))
           (Samples.doc
              [Samples.unhashable_label; Samples.unhashable_label;
               Samples.keyless])
           [Samples.unhashable_label] Samples.unhashable_label
           [Samples.keyless] (TypeError_unhashable "list")
           eq_refl eq_refl eq_refl).
Defined.

(** *** The entry count of [convert_file] *)

(** The text returned is in every case the entries joined by blank lines. *)
Lemma output_is_join fromstring self xml_data xml_root :
  root_of fromstring xml_data = Some xml_root ->
  fst (convert_to_bibtex fromstring self xml_data)
  = String.concat (nl ++ nl)
      (fst (convert_records (reset_errors self) 0 (records_of xml_root) [])).
Proof.
  intros Hroot.
  rewrite (convert_to_bibtex_root _ _ _ _ Hroot), convert_root_records.
  destruct (records_of xml_root) as [| record rest]; [reflexivity |].
  cbn [is_nil].
  destruct (convert_records (reset_errors self) 0 (record :: rest) [])
    as [entries self'].
  cbn [fst].
  destruct entries as [| entry entries]; [| reflexivity].
  now destruct (is_nil (@nil string)
                && negb (is_nil (conversion_errors self'))).
Qed.

Lemma count_char_app c a b :
  count_char c (a ++ b) = count_char c a + count_char c b.
Proof.
  induction a as [| x a IH]; cbn [append count_char]; [reflexivity |].
  rewrite IH. lia.
Qed.

Lemma count_char_join c sep l :
  count_char c sep = 0 ->
  count_char c (String.concat sep l) = list_sum (map (count_char c) l).
Proof.
  intros Hsep. induction l as [| x l IH]; [reflexivity |].
  cbn [String.concat map list_sum].
  destruct l as [| y l].
  - cbn. lia.
  - rewrite !count_char_app, Hsep, IH. reflexivity.
Qed.

Lemma list_sum_at_least (f : string -> nat) l :
  Forall (fun x => 1 <= f x) l -> length l <= list_sum (map f l).
Proof.
  induction 1 as [| x l Hx _ IH]; [reflexivity |].
  cbn [length map]. change (list_sum (f x :: map f l))
    with (f x + list_sum (map f l)). lia.
Qed.

Lemma list_sum_ones (f : string -> nat) l :
  Forall (fun x => f x = 1) l -> list_sum (map f l) = length l.
Proof.
  induction 1 as [| x l Hx _ IH]; [reflexivity |].
  cbn [length map]. change (list_sum (f x :: map f l))
    with (f x + list_sum (map f l)). lia.
Qed.

Lemma count_uint d : count_char "@" (NilEmpty.string_of_uint d) = 0.
Proof. induction d; cbn; assumption || reflexivity. Qed.

Lemma count_concat_lines lines :
  Forall (fun line => entry_count line = 0) lines ->
  entry_count (concat_lines lines) = 0.
Proof.
  unfold entry_count.
  induction 1 as [| line lines Hline _ IH]; cbn [concat_lines fold_right];
    [reflexivity |].
  fold (concat_lines lines). rewrite count_char_app. lia.
Qed.

Lemma count_field_line field field_value :
  entry_count (field_line field field_value)
  = entry_count field + entry_count field_value.
Proof.
  unfold entry_count, field_line. rewrite !count_char_app.
  change (count_char "@" nl) with 0.
  change (count_char "@" tab) with 0.
  change (count_char "@" " = {") with 0.
  change (count_char "@" "},") with 0.
  lia.
Qed.

Lemma entry_key_no_at record produced_before entry_key :
  (forall key_elem entry_key,
      find [Desc "rec-number"] record = Some key_elem ->
      format (text key_elem) = Ok entry_key ->
      entry_count entry_key = 0) ->
  format (entry_key_of record produced_before) = Ok entry_key ->
  entry_count entry_key = 0.
Proof.
  intros Hkey. unfold entry_key_of.
  assert (Hfallback :
           format (PyStr ("ref" ++ str_of_nat (length produced_before + 1)))
           = Ok entry_key ->
           entry_count entry_key = 0).
  { intros [= <-]. unfold entry_count, str_of_nat. cbn. apply count_uint. }
  destruct (find [Desc "rec-number"] record) as [key_elem |];
    [| exact Hfallback].
  destruct (truthy (text key_elem)); [now apply Hkey | exact Hfallback].
Qed.

Lemma entry_text_count entry_type entry_key fields :
  entry_count (entry_text entry_type entry_key fields)
  = 1 + entry_count entry_type + entry_count entry_key
    + entry_count
        (concat_lines (required_lines fields (_get_required_fields entry_type)))
    + entry_count
        (concat_lines (flexible_lines fields (_get_required_fields entry_type))).
Proof.
  unfold entry_count, entry_text. rewrite !count_char_app.
  change (count_char "@" "@") with 1.
  change (count_char "@" "{") with 0.
  change (count_char "@" nl) with 0.
  change (count_char "@" "}") with 0.
  lia.
Qed.

Lemma entry_text_one_at self record entry_type produced_before entry_key :
  entry_type_map_get (entry_type_name_of record) "misc" = Ok entry_type ->
  format (entry_key_of record produced_before) = Ok entry_key ->
  no_at_sign self record ->
  entry_count
    (entry_text entry_type entry_key
       (fst (_extract_fields_from_xml self record)))
  = 1.
Proof.
  intros Hty Hformat [Hkey Hvalues]. rewrite entry_text_count.
  assert (Htype : entry_count entry_type = 0).
  { apply entry_type_in_table in Hty.
    assert (Hall : forallb (fun t => (entry_count t =? 0)%nat)
                           (map snd entry_type_map) = true) by reflexivity.
    rewrite forallb_forall in Hall. now apply Nat.eqb_eq, Hall. }
  assert (Hname : forall field,
             In field (map fst (fst (_extract_fields_from_xml self record))) ->
             entry_count field = 0).
  { intros field Hin.
    apply (subseq_In _ _ _ (fieldset_keys_subseq self record)) in Hin.
    assert (Hall : forallb (fun t => (entry_count t =? 0)%nat) extraction_order
                   = true) by reflexivity.
    rewrite forallb_forall in Hall. now apply Nat.eqb_eq, Hall. }
  rewrite Forall_forall in Hvalues.
  assert (Hitem : forall field field_value,
             In (field, field_value)
                (fst (_extract_fields_from_xml self record)) ->
             entry_count (field_line field field_value) = 0).
  { intros field v Hin. rewrite count_field_line.
    rewrite (Hname field) by (now apply (in_map fst) in Hin).
    exact (Hvalues _ Hin). }
  rewrite (entry_key_no_at _ _ _ Hkey Hformat), Htype.
  rewrite !count_concat_lines; [reflexivity | |];
    apply Forall_forall; intros line Hin.
  - apply flexible_lines_present in Hin.
    destruct Hin as (field & v & Hin & _ & ->). now apply Hitem.
  - apply required_lines_present in Hin.
    destruct Hin as (field & v & _ & Hget & ->).
    apply Hitem. now apply get_Some_In.
Qed.

(** X15: the number of [@] that [convert_file] counts in the converter's
    text is never below the number of entries in it, and is that number
    whenever no record's key text or field value holds an [@]. *)
Theorem entry_count_of_output :
  forall fromstring self xml_data xml_root,
    root_of fromstring xml_data = Some xml_root ->
    let bib_entry := fst (convert_to_bibtex fromstring self xml_data) in
    produced (records_of xml_root) <= entry_count bib_entry
    /\ (Forall (no_at_sign self) (records_of xml_root) ->
        entry_count bib_entry = produced (records_of xml_root)).
Proof.
  intros fromstring self xml_data xml_root Hroot bib_entry.
  subst bib_entry. rewrite (output_is_join _ _ _ _ Hroot).
  destruct (convert_records_appends (records_of xml_root)
              (reset_errors self) 0 [])
    as (added & errors & Hent & Hlen & _ & _).
  cbn [app] in Hent. rewrite <- Hlen, <- Hent.
  unfold entry_count.
  rewrite count_char_join by reflexivity.
  split.
  - apply list_sum_at_least.
    apply convert_records_Forall; [constructor |].
    intros record before entry_type entry_key _ _ _.
    fold (entry_count
            (entry_text entry_type entry_key
               (fst (_extract_fields_from_xml (reset_errors self) record)))).
    rewrite entry_text_count. lia.
  - intros Hfree. apply list_sum_ones.
    apply convert_records_Forall; [constructor |].
    intros record before entry_type entry_key Hin Hty Hkey.
    rewrite Forall_forall in Hfree.
    rewrite (extract_fields_fst_same_flag (reset_errors self) self record
               eq_refl).
    apply entry_text_one_at with (produced_before := before);
      [assumption | assumption | now apply Hfree].
Qed.

Lemma entry_count_of_output_witness :
  let bib_entry :=
    fst (convert_to_bibtex rejecting_parser XML_init
           (InElement (Samples.doc [Samples.article; Samples.keyless]))) in
  2 <= entry_count bib_entry /\ entry_count bib_entry = 2.
Proof.
  pose proof (entry_count_of_output rejecting_parser XML_init
                (InElement (Samples.doc [Samples.article; Samples.keyless]))
                (Samples.doc [Samples.article; Samples.keyless]) eq_refl)
    as [Hlow Hexact].
  split; [exact Hlow |]. apply Hexact.
  constructor; [| constructor; [| constructor]];
    (split; [| repeat constructor]).
  - intros key_elem entry_key [= <-] [= <-]. reflexivity.
  - intros key_elem entry_key Hfind. discriminate Hfind.
Defined.

(** *** Log lines are recognised by the log-file check *)

Lemma year_has_four_digits y :
  1000 <= y < 10 * 1000 -> digits 4 (str_of_nat y) = true.
Proof.
  intros Hy.
  assert (Hall : forallb (fun n => digits 4 (str_of_nat n))
                         (seq 1000 (9 * 1000)) = true)
    by (vm_compute; reflexivity).
  rewrite forallb_forall in Hall. apply Hall. apply in_seq. lia.
Qed.

Lemma pad2_has_two_digits n : n < 100 -> digits 2 (pad2 n) = true.
Proof.
  intros Hn.
  assert (Hall : forallb (fun n => digits 2 (pad2 n)) (seq 0 100) = true)
    by (vm_compute; reflexivity).
  rewrite forallb_forall in Hall. apply Hall. apply in_seq. lia.
Qed.

Lemma match_lit c pattern s :
  match_here ([Lit c] ++ pattern) (String c "" ++ s) = match_here pattern s.
Proof. cbn. now rewrite Ascii.eqb_refl. Qed.

Lemma match_space pattern s :
  match_here ([ClassS] ++ pattern) (" " ++ s) = match_here pattern s.
Proof. reflexivity. Qed.

Lemma match_digits n :
  forall y pattern s,
    digits n y = true ->
    match_here (repeat ClassD n ++ pattern) (y ++ s) = match_here pattern s.
Proof.
  induction n as [| n IH]; intros [| c y] pattern s Hy; cbn in Hy;
    try discriminate.
  - reflexivity.
  - apply andb_true_iff in Hy. destruct Hy as [Hc Hy].
    cbn [repeat app append match_here atom_matches]. rewrite Hc.
    now apply IH.
Qed.

Lemma re_search_here pattern s :
  match_here pattern s = true -> re_search pattern s = true.
Proof. intros H. destruct s; cbn [re_search]; now rewrite H. Qed.

Lemma re_search_skip pattern before s :
  re_search pattern s = true -> re_search pattern (before ++ s) = true.
Proof.
  intros H. induction before as [| c before IH]; [exact H |].
  cbn [append re_search]. rewrite IH. apply orb_true_r.
Qed.

Lemma str_in_here sub s : starts_with sub s = true -> str_in sub s = true.
Proof. intros H. destruct s; cbn [str_in]; now rewrite H. Qed.

Lemma str_in_skip sub before s :
  str_in sub s = true -> str_in sub (before ++ s) = true.
Proof.
  intros H. induction before as [| c before IH]; [exact H |].
  cbn [append str_in]. rewrite IH. apply orb_true_r.
Qed.

Lemma timestamp_matches d rest :
  datetime_ok d ->
  match_here log_file_pattern ("[" ++ strftime d ++ "] " ++ rest) = true.
Proof.
  intros (Hy & Hmo & Hd & Hh & Hmi & Hs).
  unfold log_file_pattern, strftime. rewrite !append_assoc.
  rewrite match_lit.
  rewrite (match_digits 4) by now apply year_has_four_digits.
  rewrite match_lit.
  rewrite (match_digits 2) by (apply pad2_has_two_digits; lia).
  rewrite match_lit.
  rewrite (match_digits 2) by (apply pad2_has_two_digits; lia).
  rewrite match_space.
  rewrite (match_digits 2) by (apply pad2_has_two_digits; lia).
  rewrite match_lit.
  rewrite (match_digits 2) by (apply pad2_has_two_digits; lia).
  rewrite match_lit.
  rewrite (match_digits 2) by (apply pad2_has_two_digits; lia).
  reflexivity.
Qed.

(** X16: a text that holds a line written by [Logger.log] at level INFO,
    WARNING or ERROR, at a date whose year has four digits, passes the
    log-file test of [convert_file], whatever stands before and after the
    line: such a file is refused before any conversion. *)
Theorem log_lines_are_recognised :
  forall d level message before after,
    datetime_ok d ->
    In level ["INFO"; "WARNING"; "ERROR"] ->
    looks_like_log (before ++ log_entry (strftime d) level message ++ after)
    = true.
Proof.
  intros d level message before after Hd Hlevel.
  unfold looks_like_log, log_entry. rewrite !append_assoc.
  apply andb_true_iff. split.
  - apply re_search_skip, re_search_here.
    rewrite <- !append_assoc. rewrite !append_assoc.
    now apply timestamp_matches.
  - set (ts := strftime d).
    cbn [In] in Hlevel.
    destruct Hlevel as [<- | [<- | [<- | []]]];
      rewrite !orb_true_iff; [left; left | right | left; right];
      do 4 apply str_in_skip; apply str_in_here; reflexivity.
Qed.

Lemma log_lines_are_recognised_witness :
  looks_like_log
    ("<xml>"
       ++ log_entry (strftime (mkDatetime 2024 5 17 9 3 41)) "ERROR"
            "File not found: refs.xml"
       ++ "</xml>")
  = true.
Proof.
  apply log_lines_are_recognised.
  - unfold datetime_ok. cbn. lia.
  - cbn. tauto.
Defined.

(** *** The error list *)

Lemma convert_records_errors_known records :
  forall self index bibtex_entries,
    Forall known_error (conversion_errors self) ->
    Forall known_error
      (conversion_errors
         (snd (convert_records self index records bibtex_entries))).
Proof.
  induction records as [| record rest IH]; intros self index bibtex_entries
    Hknown.
  - exact Hknown.
  - destruct (convert_record_view self bibtex_entries record)
      as [(entry_type & Hty & Hhd & _) | (e & _ & Hraise)].
    + rewrite (convert_records_kept _ _ _ _ _ _ Hty Hhd). apply IH.
      rewrite extract_fields_errors. apply Forall_app. split; [exact Hknown |].
      unfold extraction_errors.
      destruct (extract_fields_body self record) as [fields | e];
        constructor; [| constructor].
      unfold known_error. do 4 right. now exists e.
    + rewrite (convert_records_raised _ _ _ _ _ _ Hraise). apply IH.
      cbn [append_error conversion_errors].
      apply Forall_app. split; [exact Hknown |].
      constructor; [| constructor].
      unfold known_error. do 3 right. left. now exists (index + 1), e.
Qed.

(** X17: every description in the error list after a conversion is of one
    of five shapes: the parser's message after "Error parsing XML: ",
    "Invalid XML data type", "No records found in XML data", "Error
    processing record N: ..." or "Error extracting fields: ...", the dots
    standing for the message of an [AttributeError], of one of the two
    [TypeError]s or of the [ValueError] of an oversized integer. *)
Theorem errors_have_known_shapes :
  forall fromstring self xml_data,
    Forall known_error
      (conversion_errors (snd (convert_to_bibtex fromstring self xml_data))).
Proof.
  intros fromstring self xml_data.
  assert (Hroot : forall xml_root,
             Forall known_error
               (conversion_errors
                  (snd (convert_root (reset_errors self) xml_root)))).
  { intros xml_root. rewrite convert_root_records.
    destruct (is_nil (records_of xml_root)).
    - constructor; [| constructor]. unfold known_error. right. right. now left.
    - pose proof (convert_records_errors_known (records_of xml_root)
                    (reset_errors self) 0 [] (Forall_nil _)) as Hloop.
      destruct (convert_records (reset_errors self) 0 (records_of xml_root) [])
        as [entries self'].
      cbn [snd] in Hloop.
      now destruct (is_nil entries
                    && negb (is_nil (conversion_errors self'))). }
  unfold convert_to_bibtex.
  destruct xml_data as [s | xml_root | o].
  - destruct (fromstring s) as [xml_root | msg]; [apply Hroot |].
    constructor; [| constructor]. unfold known_error. left. now exists msg.
  - apply Hroot.
  - constructor; [| constructor]. unfold known_error. right. now left.
Qed.

Lemma produced_plus_dropped records :
  produced records + length (filter record_dropped records) = length records.
Proof.
  unfold produced.
  induction records as [| record rest IH]; [reflexivity |].
  cbn [filter]. destruct (record_dropped record); cbn [negb length]; lia.
Qed.

(** X18: every record found is accounted for.  The entries and the records
    dropped, those on which the type lookup or the writing of the header
    raised, add up to the records, and the error list holds at most one
    error for each record. *)
Theorem records_accounted_for :
  forall self index records,
    let out := convert_records self index records [] in
    length (fst out)
    + length (filter record_dropped records) = length records
    /\ length (conversion_errors (snd out))
       <= length (conversion_errors self) + length records.
Proof.
  intros self index records out. subst out.
  destruct (convert_records_appends records self index [])
    as (added & errors & -> & Hlen & -> & Hnerr).
  cbn [app]. rewrite length_app, Hlen, Hnerr.
  split; [apply produced_plus_dropped |].
  unfold failed.
  pose proof (filter_length_le
                (fun record =>
                   record_dropped record || extraction_fails self record)
                records).
  lia.
Qed.

(** *** Stored values are trimmed *)

Lemma rstrip_idem s : rstrip (rstrip s) = rstrip s.
Proof.
  induction s as [| c s IH]; [reflexivity |].
  cbn [rstrip]. destruct (rstrip s) as [| x r] eqn:Hr.
  - destruct (isspace c) eqn:Hc; [reflexivity |].
    cbn [rstrip]. now rewrite Hc.
  - change (rstrip (String c (String x r))
            = String c (String x r)).
    cbn [rstrip] in IH |- *. fold (rstrip (String x r)).
    change (match rstrip r with
            | "" => if isspace x then "" else String x ""
            | String a s0 => String x (String a s0)
            end) with (rstrip (String x r)) in *.
    now rewrite IH.
Qed.

Lemma lstrip_head s : head_ok (lstrip s).
Proof.
  induction s as [| c s IH]; cbn [lstrip]; [exact I |].
  destruct (isspace c) eqn:Hc; [exact IH | exact Hc].
Qed.

Lemma lstrip_fix s : head_ok s -> lstrip s = s.
Proof. destruct s as [| c s]; cbn; [reflexivity | now intros ->]. Qed.

Lemma rstrip_head s : head_ok s -> head_ok (rstrip s).
Proof.
  destruct s as [| c s]; cbn [head_ok rstrip]; [trivial |].
  intros Hc. destruct (rstrip s); [rewrite Hc |]; exact Hc.
Qed.

Lemma strip_idem s : strip (strip s) = strip s.
Proof.
  unfold strip.
  rewrite (lstrip_fix (rstrip (lstrip s)))
    by (apply rstrip_head, lstrip_head).
  apply rstrip_idem.
Qed.

Lemma trimmed_after_write (fields fields' : fieldset) :
  values_trimmed fields ->
  fields' = fields \/ (exists key s, fields' = Dict.set fields key (strip s)) ->
  values_trimmed fields'.
Proof.
  intros Htrim [-> | (key & s & ->)]; [exact Htrim |].
  intros k v Ha Hk. destruct (String.eqb_spec key k) as [-> | Hne].
  - rewrite get_set_same. intros [= <-]. apply strip_idem.
  - rewrite get_set_other by now apply String.eqb_neq. now apply Htrim.
Qed.

Lemma trimmed_after_other (fields fields' : fieldset) written :
  values_trimmed fields ->
  written = "author" \/ written = "keywords" ->
  (forall k, (written =? k) = false ->
             Dict.get fields' k = Dict.get fields k) ->
  values_trimmed fields'.
Proof.
  intros Htrim Hwritten Hother k v Ha Hk.
  rewrite Hother; [now apply Htrim |].
  apply String.eqb_neq. destruct Hwritten as [-> | ->]; congruence.
Qed.

Lemma extract_single_writes_trimmed self elem key fields fields' :
  extract_single self elem key fields = Ok fields' ->
  fields' = fields \/ (exists k s, fields' = Dict.set fields k (strip s)).
Proof.
  unfold extract_single. intros H.
  destruct elem as [el |]; [| injection H; auto].
  destruct (_extract_text_from_styled_element self (Some el)) as [t |];
    cbn [bind] in H; [| discriminate].
  destruct (truthy t); [| injection H; auto].
  destruct t as [| s | z |]; cbn [py_strip bind] in H; try discriminate.
  injection H as <-. eauto.
Qed.

Lemma extract_secondary_writes_trimmed self record fields fields' :
  extract_secondary self record fields = Ok fields' ->
  fields' = fields \/ (exists k s, fields' = Dict.set fields k (strip s)).
Proof.
  unfold extract_secondary. intros H.
  destruct (find [Desc "titles"; Child "secondary-title"] record) as [sec |];
    [| injection H; auto].
  destruct (_extract_text_from_styled_element self (Some sec)) as [t |];
    cbn [bind] in H; [| discriminate].
  destruct (truthy t); [| injection H; auto].
  destruct (find [Desc "ref-type"] record) as [ref_type_elem |];
    [| injection H; auto].
  destruct (Dict.get (attrib ref_type_elem) "name") as [name |];
    [| injection H; auto].
  destruct (eq_str name "Journal Article");
    (destruct t as [| s | z |]; cbn [py_strip bind] in H; try discriminate);
    injection H as <-; eauto.
Qed.

Lemma fieldset_values_trimmed self record fields :
  extract_fields_body self record = Ok fields -> values_trimmed fields.
Proof.
  intros Hbody. split_steps Hbody.
  assert (Hstart : values_trimmed []) by (intros k v _ _; discriminate).
  repeat
    match goal with
    | Hs : values_trimmed ?f, H : extract_single _ _ _ ?f = Ok ?f' |- _ =>
        pose proof (trimmed_after_write f f' Hs
                      (extract_single_writes_trimmed _ _ _ _ _ H));
        clear Hs H
    | Hs : values_trimmed ?f, H : extract_secondary _ _ ?f = Ok ?f' |- _ =>
        pose proof (trimmed_after_write f f' Hs
                      (extract_secondary_writes_trimmed _ _ _ _ H));
        clear Hs H
    | Hs : values_trimmed ?f, H : extract_authors _ _ ?f = Ok ?f' |- _ =>
        pose proof (trimmed_after_other f f' "author" Hs
                      (or_introl eq_refl)
                      (fun k => extract_authors_other _ _ _ _ k H));
        clear Hs H
    | Hs : values_trimmed ?f, H : extract_keywords _ _ ?f = Ok ?f' |- _ =>
        pose proof (trimmed_after_other f f' "keywords" Hs
                      (or_intror eq_refl)
                      (fun k => extract_keywords_other _ _ _ _ k H));
        clear Hs H
    end.
  assumption.
Qed.

(** X19: every value of the FieldSet other than [author] and [keywords]
    is stored trimmed: it has neither leading nor trailing white space, so
    trimming it again changes nothing. *)
Theorem stored_values_are_trimmed :
  forall self record key v,
    key <> "author" -> key <> "keywords" ->
    Dict.get (fst (_extract_fields_from_xml self record)) key = Some v ->
    strip v = v
    /\ head_ok v.
Proof.
  intros self record key v Ha Hk.
  unfold _extract_fields_from_xml.
  destruct (extract_fields_body self record) as [fields | e] eqn:Hbody;
    cbn [fst]; [| discriminate].
  intros Hget.
  assert (Hv : strip v = v)
    by exact (fieldset_values_trimmed _ _ _ Hbody key v Ha Hk Hget).
  split; [exact Hv |].
  rewrite <- Hv. unfold strip. apply rstrip_head, lstrip_head.
Qed.

Lemma stored_values_are_trimmed_witness :
  strip "Literate Programming" = "Literate Programming"
  /\ head_ok "Literate Programming".
Proof.
  apply (stored_values_are_trimmed XML_init Samples.article "title").
  - discriminate.
  - discriminate.
  - reflexivity.
Defined.

(** *** Records kept and records dropped *)

(** X20: a record whose field-extraction pass raises is kept when its type
    lookup and its header do not raise.  The pass hands back an empty
    FieldSet and leaves one error, and the loop writes the record's entry all
    the same, header and closing brace only; the records after it are
    processed as usual. *)
Theorem failed_extraction_keeps_entry :
  forall self index pre record rest,
    record_dropped record = false ->
    extraction_fails self record = true ->
    let records := (pre ++ record :: rest)%list in
    let out := convert_records self index records [] in
    (exists entry_type produced_before entry_key,
        entry_type_map_get (entry_type_name_of record) "misc" = Ok entry_type
        /\ length produced_before = produced pre
        /\ format (entry_key_of record produced_before) = Ok entry_key
        /\ nth_error (fst out) (produced pre)
           = Some ("@" ++ entry_type ++ "{" ++ entry_key ++ nl ++ "}"))
    /\ length (fst out) = produced pre + 1 + produced rest
    /\ length (conversion_errors (snd out))
       = length (conversion_errors self)
         + failed self pre + 1 + failed self rest.
Proof.
  intros self index pre record rest Hkept Hfails records out.
  subst records out.
  assert (Hprod : produced (pre ++ record :: rest)
                  = produced pre + 1 + produced rest).
  { rewrite produced_app. unfold produced at 2. cbn [filter].
    rewrite Hkept. cbn [negb length]. unfold produced. lia. }
  assert (Hfailed : failed self (pre ++ record :: rest)
                    = failed self pre + 1 + failed self rest).
  { rewrite failed_app. unfold failed at 2. cbn [filter].
    rewrite Hkept, Hfails. cbn [orb length]. unfold failed. lia. }
  destruct (convert_records_appends (pre ++ record :: rest) self index [])
    as (added & errors & Hent & Hlen & Herr & Hnerr).
  cbn [app] in Hent.
  split; [| rewrite Hent, Herr, length_app, Hlen, Hnerr; lia].
  destruct (convert_record_view self [] record)
    as [(entry_type & Hty & Hhd & _) | (e & Hdrop & _)]; [| congruence].
  destruct (nth_entry self index pre record rest entry_type Hty Hhd)
    as (before & Hbefore & Hnth).
  exists entry_type, before, (header_key record before).
  repeat split; [assumption | assumption | now apply format_header_key |].
  rewrite Hnth.
  destruct (extract_fields_failed self record Hfails) as [-> _].
  now rewrite entry_text_no_fields.
Qed.

Lemma failed_extraction_keeps_entry_witness :
  let out :=
    convert_records XML_init 0
      [Samples.keyless; Samples.bad_title; Samples.keyless] [] in
  (exists entry_type produced_before entry_key,
      entry_type_map_get (entry_type_name_of Samples.bad_title) "misc"
      = Ok entry_type
      /\ length produced_before = 1
      /\ format (entry_key_of Samples.bad_title produced_before) = Ok entry_key
      /\ nth_error (fst out) 1
         = Some ("@" ++ entry_type ++ "{" ++ entry_key ++ nl ++ "}"))
  /\ length (fst out) = 3
  /\ length (conversion_errors (snd out)) = 1.
Proof.
  exact (failed_extraction_keeps_entry XML_init 0
           [Samples.keyless] Samples.bad_title [Samples.keyless]
           eq_refl eq_refl).
Defined.

(** X21: a record whose [rec-number] text is an integer of more than 4300
    digits is dropped when its header is written: the loop writes no entry
    for it, leaves one "Error processing record N" error that carries the
    interpreter's message, and goes on with the records after it. *)
Theorem oversized_key_drops_record :
  forall self index record rest bibtex_entries entry_type key_elem z,
    entry_type_map_get (entry_type_name_of record) "misc" = Ok entry_type ->
    find [Desc "rec-number"] record = Some key_elem ->
    text key_elem = PyInt z ->
    (max_str_digits <? String.length (str_of_Z (Z.abs z)))%nat = true ->
    record_dropped record = true
    /\ convert_records self index (record :: rest) bibtex_entries
       = convert_records
           (append_error self
              ("Error processing record " ++ str_of_nat (index + 1)
                 ++ ": Exceeds the limit (4300 digits) for integer string "
                 ++ "conversion; use sys.set_int_max_str_digits() to "
                 ++ "increase the limit"))
           (S index) rest bibtex_entries.
Proof.
  intros self index record rest bibtex_entries entry_type key_elem z
    Hty Hfind Htext Hdigits.
  assert (Hnonzero : truthy (PyInt z) = true).
  { destruct z as [| p | p]; [| reflexivity | reflexivity].
    vm_compute in Hdigits. discriminate. }
  assert (Hhd : header_raises record = true).
  { unfold header_raises, entry_key_of.
    rewrite Hfind, Htext, Hnonzero. cbn [format]. now rewrite Hdigits. }
  split.
  - unfold record_dropped. rewrite Hhd. apply orb_true_r.
  - now rewrite (convert_records_raised _ _ _ _ _ _
                   (convert_record_header self bibtex_entries _ _ Hty Hhd)).
Qed.

Lemma oversized_key_drops_record_witness :
  record_dropped Samples.huge_key = true
  /\ convert_records XML_init 0 [Samples.huge_key; Samples.keyless] []
     = convert_records
         (append_error XML_init
            ("Error processing record " ++ str_of_nat (0 + 1)
               ++ ": Exceeds the limit (4300 digits) for integer string "
               ++ "conversion; use sys.set_int_max_str_digits() to "
               ++ "increase the limit"))
         1 [Samples.keyless] [].
Proof.
  refine (oversized_key_drops_record XML_init 0 Samples.huge_key
            [Samples.keyless] [] "misc"
            (mkElement "rec-number" [] (PyInt (10 ^ 4300)) []) (10 ^ 4300)
            eq_refl eq_refl eq_refl _).
  vm_compute. reflexivity.
Defined.
